(** * Attio synchroniser: the record upsert script and its company helpers

    A shallow embedding of the script that pushes user records to the CRM
    through the generated client ([sdk]), and of the three company helpers
    next to it.  The JavaScript runtime pieces the script relies on
    ([String.prototype.split], [String.prototype.replace],
    [Date.prototype.toISOString], [JSON.stringify], property access) are
    written out as functions; the outside world (the HTTP client behind
    [sdk], the file system, the host's date parser) is an interface, [Host],
    so that every statement holds for all hosts and can be run on a test
    double. *)

From Stdlib Require Import String Ascii List ZArith Lia Bool DecimalString.
From Stdlib Require Import QArith Qround SpecFloat.
Import ListNotations.

Local Open Scope list_scope.
Local Open Scope string_scope.

Set Warnings "-register-all".

(** ** Numbers

    The numbers of the language are the IEEE 754 binary64 values: a sign, a
    mantissa and a binary exponent, or a zero, an infinity or NaN.  [of_Z]
    and [of_binary] round to such a value as the language does (to nearest,
    ties to even); the printing functions read a finite number through its
    value [m * 2^e]. *)
Module Number.

Local Open Scope Z_scope.

Definition t : Type := spec_float.

(** The number nearest to an integer (the integer itself up to 2^53). *)
Definition of_Z (z : Z) : t := binary_normalize 53 1024 z 0 false.

(** The number nearest to [z * 2^e]. *)
Definition of_binary (z e : Z) : t := binary_normalize 53 1024 z e false.

Definition pow (b : Z) (e : Z) : Q := Qpower (inject_Z b) e.

(** The gap between a positive value [m * 2^e] and the next number above
    it is [2^ulp_exponent]. *)
Definition ulp_exponent (m : positive) (e : Z) : Z :=
  Z.max (Z.log2 (Zpos m) + e - 52) (-1074).

(** The value in units of its gap: the 53-bit mantissa. *)
Definition mantissa (m : positive) (e : Z) : Z :=
  let u := ulp_exponent m e in
  if u <=? e then Zpos m * 2 ^ (e - u) else Zpos m / 2 ^ (u - e).

(** Whether the decimal [d] reads back as the number [m * 2^e]: it lies
    between the midpoints to the two neighbours, the midpoints themselves
    counting when the mantissa is even.  Below a power of two the
    neighbour is half a gap away. *)
Definition reads_back (m : positive) (e : Z) (d : Q) : bool :=
  let u := ulp_exponent m e in
  let mant := mantissa m e in
  let x := Qdiv d (pow 2 (u - 2)) in
  let lo := inject_Z (4 * mant - (if (mant =? 2 ^ 52) && (-1074 <? u) then 1 else 2)) in
  let hi := inject_Z (4 * mant + 2) in
  if Z.even mant then Qle_bool lo x && Qle_bool x hi
  else negb (Qle_bool x lo) && negb (Qle_bool hi x).

(** The [n] with [10^(n-1) <= v < 10^n], found from a first guess. *)
Fixpoint magnitude (fuel : nat) (v : Q) (n : Z) : Z :=
  match fuel with
  | O => n
  | S fuel' =>
      if Qle_bool (pow 10 n) v then magnitude fuel' v (n + 1)
      else if Qle_bool (pow 10 (n - 1)) v then n
      else magnitude fuel' v (n - 1)
  end.

(** The shortest decimal that reads back as the number: its digits [s], as
    an integer of [k] digits, and the position [n] of the decimal point,
    so that the decimal is [s * 10^(n-k)].  With several of the same
    length the nearest is taken, and the even one of two equally near. *)
Fixpoint shortest (fuel : nat) (m : positive) (e : Z) (v : Q) (n k : Z)
    : Z * Z * Z :=
  let p := pow 10 (n - k) in
  let below := Qfloor (Qdiv v p) in
  let above := below + 1 in
  let ok_below := (0 <? below) && reads_back m e (Qmult (inject_Z below) p) in
  let ok_above := reads_back m e (Qmult (inject_Z above) p) in
  let pick (s : Z) := if s =? 10 ^ k then (s / 10, n + 1, k) else (s, n, k) in
  match fuel with
  | O => pick below
  | S fuel' =>
      if ok_below && ok_above then
        match Qcompare (Qminus v (Qmult (inject_Z below) p))
                       (Qminus (Qmult (inject_Z above) p) v) with
        | Lt => pick below
        | Gt => pick above
        | Eq => if Z.even below then pick below else pick above
        end
      else if ok_below then pick below
      else if ok_above then pick above
      else shortest fuel' m e v n (k + 1)
  end.

Definition decimal (z : Z) : string := NilZero.string_of_int (Z.to_int z).

Fixpoint zeros (n : nat) : string :=
  match n with
  | O => EmptyString
  | S n' => String "0" (zeros n')
  end.

Definition take (n : nat) (s : string) : string := String.substring 0 n s.
Definition skip (n : nat) (s : string) : string :=
  String.substring n (String.length s - n) s.

(** The text of a positive number from its shortest decimal: plain digits
    up to 21 integer digits, a leading [0.] down to 10^-7, and the
    exponent form outside. *)
Definition layout (s n k : Z) : string :=
  let digits := decimal s in
  if (k <=? n) && (n <=? 21) then (digits ++ zeros (Z.to_nat (n - k)))%string
  else if (0 <? n) && (n <=? 21) then
    (take (Z.to_nat n) digits ++ "." ++ skip (Z.to_nat n) digits)%string
  else if (-6 <? n) && (n <=? 0) then
    ("0." ++ zeros (Z.to_nat (- n)) ++ digits)%string
  else
    let exponent := ((if (0 <? n - 1)%Z then "+" else "-") ++ decimal (Z.abs (n - 1)))%string in
    if k =? 1 then (digits ++ "e" ++ exponent)%string
    else (take 1 digits ++ "." ++ skip 1 digits ++ "e" ++ exponent)%string.

(** [Number::toString]. *)
Definition toString (x : t) : string :=
  match x with
  | S754_nan => "NaN"
  | S754_infinity negative => if negative then "-Infinity" else "Infinity"
  | S754_zero _ => "0"
  | S754_finite negative m e =>
      let v := Qmult (inject_Z (Zpos m)) (pow 2 e) in
      let guess := ((Z.log2 (Zpos m) + e) * 30103) / 100000 + 1 in
      let n := magnitude 4 v guess in
      let '(s, n', k) := shortest 17 m e v n 1 in
      ((if negative then "-" else "") ++ layout s n' k)%string
  end.

Definition isFinite (x : t) : bool :=
  match x with
  | S754_finite _ _ _ | S754_zero _ => true
  | _ => false
  end.

End Number.

(** ** JavaScript values *)

(** The values that flow through the script: request bodies, responses,
    rejection reasons, what is logged.  Objects keep their properties in
    insertion order, as [JSON.stringify] and [console.log] show them.
    Numbers only occur inside responses and as lengths. *)
Inductive JsVal : Type :=
| JUndefined
| JNull
| JBool (b : bool)
| JNum (x : Number.t)
| JStr (s : string)
| JArr (items : list JsVal)
| JObj (fields : list (string * JsVal)).

(** Own property lookup in an object's property list. *)
Fixpoint assoc (k : string) (fields : list (string * JsVal)) : option JsVal :=
  match fields with
  | [] => None
  | (k', v) :: rest => if String.eqb k k' then Some v else assoc k rest
  end.

(** Error objects as the runtime throws them. *)
Definition mkError (kind message : string) : JsVal :=
  JObj [("name", JStr kind); ("message", JStr message)].

Definition TypeError := mkError "TypeError".
Definition RangeError := mkError "RangeError".
Definition ReferenceError := mkError "ReferenceError".

(** How an evaluation ends: with a value, or with a thrown value (for an
    [async] function: a fulfilled or a rejected promise). *)
Inductive Outcome (A : Type) : Type :=
| Returned (a : A)
| Thrown (e : JsVal).

Arguments Returned {A} a.
Arguments Thrown {A} e.

(** [v.k]: reading a property of [undefined] or [null] throws a TypeError;
    a missing property reads as [undefined]. *)
Definition get_prop (v : JsVal) (k : string) : Outcome JsVal :=
  match v with
  | JUndefined =>
      Thrown (TypeError ("Cannot read properties of undefined (reading '" ++ k ++ "')"))
  | JNull =>
      Thrown (TypeError ("Cannot read properties of null (reading '" ++ k ++ "')"))
  | JObj fields =>
      Returned match assoc k fields with Some x => x | None => JUndefined end
  | JArr items =>
      Returned (if String.eqb k "length"
                then JNum (Number.of_Z (Z.of_nat (List.length items)))
                else JUndefined)
  | JStr s =>
      Returned (if String.eqb k "length"
                then JNum (Number.of_Z (Z.of_nat (String.length s)))
                else JUndefined)
  | JBool _ | JNum _ => Returned JUndefined
  end.

(** [a[i]] on an array of strings: out of range reads as [undefined]. *)
Definition index (a : list string) (i : nat) : JsVal :=
  match nth_error a i with
  | Some s => JStr s
  | None => JUndefined
  end.

(** ** String builtins *)

(** [s.split(sep)] for a separator of one character, the only form the
    script uses ([name.split(" ")]).  Every occurrence of the separator
    cuts; the result always has at least one element. *)
Fixpoint split (sep : ascii) (s : string) : list string :=
  match s with
  | EmptyString => [EmptyString]
  | String c rest =>
      if Ascii.eqb c sep then EmptyString :: split sep rest
      else match split sep rest with
           | tok :: toks => String c tok :: toks
           | [] => [String c EmptyString]
           end
  end.

Fixpoint drop (n : nat) (s : string) : string :=
  match n, s with
  | O, _ => s
  | S n', String _ rest => drop n' rest
  | S _, EmptyString => EmptyString
  end.

(** [s.replace(pat, rep)] with a string pattern: only the first occurrence
    is replaced ([rep] is taken literally; the script's replacement has no
    [$] pattern). *)
Fixpoint replace (pat rep s : string) : string :=
  if String.prefix pat s then rep ++ drop (String.length pat) s
  else match s with
       | EmptyString => EmptyString
       | String c rest => String c (replace pat rep rest)
       end.

Definition space : ascii := " "%char.

(** ** Dates

    Time values are milliseconds since the epoch, in UTC; [None] stands for
    [NaN], the time value of an invalid date. *)

Module Date.

Local Open Scope Z_scope.

Definition msPerDay : Z := 86400000.
Definition maxTime : Z := 8640000000000000.

Definition Day (t : Z) : Z := t / msPerDay.
Definition TimeWithinDay (t : Z) : Z := t mod msPerDay.

Definition DayFromYear (y : Z) : Z :=
  365 * (y - 1970) + (y - 1969) / 4 - (y - 1901) / 100 + (y - 1601) / 400.

Definition DaysInYear (y : Z) : Z :=
  if (y mod 4 =? 0) && (negb (y mod 100 =? 0) || (y mod 400 =? 0))
  then 366 else 365.

(** The year of a day number: the largest [y] with [DayFromYear y <= d].
    A first guess from the mean year length is off by at most one. *)
Definition YearFromDay (d : Z) : Z :=
  let y := 1970 + (400 * d) / 146097 in
  if DayFromYear y <=? d
  then (if DayFromYear (y + 1) <=? d then y + 1 else y)
  else y - 1.

Definition YearFromTime (t : Z) : Z := YearFromDay (Day t).
Definition InLeapYear (t : Z) : Z :=
  if DaysInYear (YearFromTime t) =? 366 then 1 else 0.
Definition DayWithinYear (t : Z) : Z := Day t - DayFromYear (YearFromTime t).

(** Months are numbered from 0 (January). *)
Definition MonthFromTime (t : Z) : Z :=
  let d := DayWithinYear t in
  let l := InLeapYear t in
  if d <? 31 then 0
  else if d <? 59 + l then 1
  else if d <? 90 + l then 2
  else if d <? 120 + l then 3
  else if d <? 151 + l then 4
  else if d <? 181 + l then 5
  else if d <? 212 + l then 6
  else if d <? 243 + l then 7
  else if d <? 273 + l then 8
  else if d <? 304 + l then 9
  else if d <? 334 + l then 10
  else 11.

Definition DateFromTime (t : Z) : Z :=
  let d := DayWithinYear t in
  let l := InLeapYear t in
  match MonthFromTime t with
  | 0 => d + 1
  | 1 => d - 30
  | 2 => d - 58 - l
  | 3 => d - 89 - l
  | 4 => d - 119 - l
  | 5 => d - 150 - l
  | 6 => d - 180 - l
  | 7 => d - 211 - l
  | 8 => d - 242 - l
  | 9 => d - 272 - l
  | 10 => d - 303 - l
  | _ => d - 333 - l
  end.

Definition HourFromTime (t : Z) : Z := (t / 3600000) mod 24.
Definition MinFromTime (t : Z) : Z := (t / 60000) mod 60.
Definition SecFromTime (t : Z) : Z := (t / 1000) mod 60.
Definition msFromTime (t : Z) : Z := t mod 1000.

(** [TimeClip]: time values beyond +-8.64e15 ms are not dates. *)
Definition TimeClip (t : Z) : option Z :=
  if Z.abs t <=? maxTime then Some t else None.

Definition digit (n : Z) : ascii := ascii_of_N (48 + Z.to_N (n mod 10)).

(** The last [width] decimal digits of [n], zero padded. *)
Fixpoint pad (width : nat) (n : Z) : string :=
  match width with
  | O => EmptyString
  | S w => (pad w (n / 10) ++ String (digit n) EmptyString)%string
  end.

(** Years 0..9999 print with four digits, all others as an expanded year
    with a sign and six digits. *)
Definition year_string (y : Z) : string :=
  if (0 <=? y) && (y <=? 9999) then pad 4 y
  else ((if (y <? 0)%Z then "-" else "+") ++ pad 6 (Z.abs y))%string.

(** The text [toISOString] produces for a valid time value. *)
Definition iso (t : Z) : string :=
  (year_string (YearFromTime t) ++ "-" ++ pad 2 (MonthFromTime t + 1)%Z ++ "-"
   ++ pad 2 (DateFromTime t) ++ "T" ++ pad 2 (HourFromTime t) ++ ":"
   ++ pad 2 (MinFromTime t) ++ ":" ++ pad 2 (SecFromTime t) ++ "."
   ++ pad 3 (msFromTime t) ++ "Z")%string.

(** *** Reading the UTC form back *)

Definition MakeTime (hour min sec ms : Z) : Z :=
  hour * 3600000 + min * 60000 + sec * 1000 + ms.

(** Day number within the year on which month [m] (0 = January) starts;
    12 and above give the length of the year. *)
Definition month_start (leap m : Z) : Z :=
  match m with
  | 0 => 0
  | 1 => 31
  | 2 => 59 + leap
  | 3 => 90 + leap
  | 4 => 120 + leap
  | 5 => 151 + leap
  | 6 => 181 + leap
  | 7 => 212 + leap
  | 8 => 243 + leap
  | 9 => 273 + leap
  | 10 => 304 + leap
  | 11 => 334 + leap
  | _ => 365 + leap
  end.

Definition leap_day (y : Z) : Z := DaysInYear y - 365.

Definition MakeDay (year month date : Z) : Z :=
  let ym := year + month / 12 in
  let mn := month mod 12 in
  DayFromYear ym + month_start (leap_day ym) mn + date - 1.

Definition MakeDate (day time : Z) : Z := day * msPerDay + time.

Definition digit_value (c : ascii) : option Z :=
  let n := N_of_ascii c in
  if (48 <=? n)%N && (n <=? 57)%N then Some (Z.of_N n - 48) else None.

(** Exactly [n] decimal digits from the front of [s], added to [acc]. *)
Fixpoint digits (n : nat) (acc : Z) (s : string) : option (Z * string) :=
  match n with
  | O => Some (acc, s)
  | S n' =>
      match s with
      | EmptyString => None
      | String c rest =>
          match digit_value c with
          | Some v => digits n' (10 * acc + v) rest
          | None => None
          end
      end
  end.

Definition expect (c : ascii) (s : string) : option string :=
  match s with
  | EmptyString => None
  | String c' rest => if Ascii.eqb c c' then Some rest else None
  end.

(** Four digits, or a sign and six digits; [-000000] is not a year. *)
Definition year_field (s : string) : option (Z * string) :=
  match s with
  | EmptyString => None
  | String c rest =>
      if Ascii.eqb c "+" then digits 6 0 rest
      else if Ascii.eqb c "-" then
        match digits 6 0 rest with
        | Some (y, rest') => if y =? 0 then None else Some (- y, rest')
        | None => None
        end
      else digits 4 0 s
  end.

Definition and_then {A B : Type} (o : option A) (k : A -> option B) : option B :=
  match o with
  | Some a => k a
  | None => None
  end.

(** The time value denoted by a text of the form
    [YYYY-MM-DDTHH:mm:ss.sssZ] (or with an expanded year), [None] for
    any other text or for fields out of range. *)
Definition of_iso (s : string) : option Z :=
  and_then (year_field s) (fun '(y, s) =>
  and_then (expect "-" s) (fun s =>
  and_then (digits 2 0 s) (fun '(mo, s) =>
  and_then (expect "-" s) (fun s =>
  and_then (digits 2 0 s) (fun '(d, s) =>
  and_then (expect "T" s) (fun s =>
  and_then (digits 2 0 s) (fun '(h, s) =>
  and_then (expect ":" s) (fun s =>
  and_then (digits 2 0 s) (fun '(mi, s) =>
  and_then (expect ":" s) (fun s =>
  and_then (digits 2 0 s) (fun '(sec, s) =>
  and_then (expect "." s) (fun s =>
  and_then (digits 3 0 s) (fun '(ms, s) =>
    if String.eqb s "Z"
       && (1 <=? mo) && (mo <=? 12)
       && (1 <=? d)
       && (d <=? month_start (leap_day y) mo - month_start (leap_day y) (mo - 1))
       && (h <? 24) && (mi <? 60) && (sec <? 60)
    then TimeClip (MakeDate (MakeDay y (mo - 1) d) (MakeTime h mi sec ms))
    else None))))))))))))).

End Date.

(** ** JSON.stringify *)

Module JSON.

Definition quote : ascii := ascii_of_nat 34.
Definition backslash : ascii := ascii_of_nat 92.
Definition newline : string := String (ascii_of_nat 10) EmptyString.

Definition hex (n : nat) : ascii :=
  match String.get n "0123456789abcdef" with
  | Some c => c
  | None => "0"%char
  end.

Definition escaped (c : ascii) : string := String backslash (String c EmptyString).

(** One character of a quoted string: the two-character escapes, [\u00xx]
    for the other control characters, anything else as it is. *)
Definition quote_char (c : ascii) : string :=
  let n := nat_of_ascii c in
  if Nat.eqb n 8 then escaped "b"
  else if Nat.eqb n 9 then escaped "t"
  else if Nat.eqb n 10 then escaped "n"
  else if Nat.eqb n 12 then escaped "f"
  else if Nat.eqb n 13 then escaped "r"
  else if Nat.eqb n 34 then escaped quote
  else if Nat.eqb n 92 then escaped backslash
  else if Nat.ltb n 32 then
    String backslash ("u00" ++ String (hex (n / 16)) (String (hex (n mod 16)) EmptyString))
  else String c EmptyString.

Fixpoint quote_body (s : string) : string :=
  match s with
  | EmptyString => EmptyString
  | String c rest => quote_char c ++ quote_body rest
  end.

Definition quoted (s : string) : string :=
  String quote (quote_body s ++ String quote EmptyString).

(** A number prints as [Number::toString] gives it; NaN and the infinities
    print as [null]. *)
Definition number (x : Number.t) : string :=
  if Number.isFinite x then Number.toString x else "null".

Fixpoint join (sep : string) (parts : list string) : string :=
  match parts with
  | [] => EmptyString
  | [p] => p
  | p :: rest => p ++ sep ++ join sep rest
  end.

(** Brackets around the serialised members: nothing in between when there
    is no member; one member per line at the inner indentation when a gap
    is in force. *)
Definition wrap (opening closing gap indent : string) (parts : list string) : string :=
  match parts with
  | [] => opening ++ closing
  | _ =>
      if String.eqb gap EmptyString
      then opening ++ join "," parts ++ closing
      else let inner := indent ++ gap in
           opening ++ newline ++ inner
           ++ join ("," ++ newline ++ inner) parts
           ++ newline ++ indent ++ closing
  end.

(** Serialisation of a value at a given indentation; [None] is the
    [undefined] that [JSON.stringify] returns for an [undefined] value.  In
    an array [undefined] prints as [null]; in an object the property is
    left out. *)
Fixpoint ser (gap indent : string) (v : JsVal) {struct v} : option string :=
  match v with
  | JUndefined => None
  | JNull => Some "null"
  | JBool b => Some (if b then "true" else "false")
  | JNum x => Some (number x)
  | JStr s => Some (quoted s)
  | JArr items =>
      let parts :=
        (fix members (l : list JsVal) : list string :=
           match l with
           | [] => []
           | x :: rest =>
               match ser gap (indent ++ gap) x with
               | Some t => t
               | None => "null"
               end :: members rest
           end) items in
      Some (wrap "[" "]" gap indent parts)
  | JObj fields =>
      let colon := if String.eqb gap EmptyString then ":" else ": " in
      let parts :=
        (fix members (l : list (string * JsVal)) : list string :=
           match l with
           | [] => []
           | (k, x) :: rest =>
               match ser gap (indent ++ gap) x with
               | Some t => (quoted k ++ colon ++ t) :: members rest
               | None => members rest
               end
           end) fields in
      Some (wrap "{" "}" gap indent parts)
  end.

Fixpoint spaces (n : nat) : string :=
  match n with
  | O => EmptyString
  | S m => String " " (spaces m)
  end.

(** [JSON.stringify(v, null, n)]: the gap is [n] spaces, at most ten. *)
Definition stringify (v : JsVal) (n : nat) : option string :=
  ser (spaces (Nat.min n 10)) EmptyString v.

End JSON.

(** ** The layout of an indented listing

    JSON with two spaces of indentation for each level of nesting, written
    from the level and not from the indentation strings: the members of an
    array or an object stand one per line, two spaces further in than the
    brackets around them; an empty array or object is its two brackets. *)
Module Pretty.

Definition margin (depth : nat) : string := JSON.spaces (2 * depth).

Definition block (opening closing : string) (depth : nat) (parts : list string)
    : string :=
  match parts with
  | [] => opening ++ closing
  | _ =>
      opening ++ JSON.newline ++ margin (S depth)
      ++ JSON.join ("," ++ JSON.newline ++ margin (S depth)) parts
      ++ JSON.newline ++ margin depth ++ closing
  end.

Fixpoint text (depth : nat) (v : JsVal) {struct v} : option string :=
  match v with
  | JUndefined => None
  | JNull => Some "null"
  | JBool b => Some (if b then "true" else "false")
  | JNum x => Some (JSON.number x)
  | JStr s => Some (JSON.quoted s)
  | JArr items =>
      Some (block "[" "]" depth
              ((fix elements (l : list JsVal) : list string :=
                  match l with
                  | [] => []
                  | x :: rest =>
                      match text (S depth) x with
                      | Some t => t
                      | None => "null"
                      end :: elements rest
                  end) items))
  | JObj fields =>
      Some (block "{" "}" depth
              ((fix members (l : list (string * JsVal)) : list string :=
                  match l with
                  | [] => []
                  | (k, x) :: rest =>
                      match text (S depth) x with
                      | Some t => (JSON.quoted k ++ ": " ++ t) :: members rest
                      | None => members rest
                      end
                  end) fields))
  end.





End Pretty.

(** ** The host and the effects of the script *)

(** What the script does to the outside, in the order it happens. *)
Inductive Event : Type :=
| Auth (token : JsVal)
| Fetch (path method : string) (args : list JsVal)
| WriteFile (path data : string)
| ConsoleLog (v : JsVal)
| ConsoleError (v : JsVal).

(** The outside world.  [host_fetch] is [APICore.fetch] of the generated
    client: given the operation's path and method and the caller's
    arguments it settles with a response or rejects with an error.
    [host_write] is the file system behind [fs.writeFileSync].
    [host_parse] is the host's parser for date strings in the local time
    zone ([None] for a string it cannot read). *)
Class Host : Type := {
  World : Type;
  host_parse : string -> option Z;
  host_fetch : string -> string -> list JsVal -> World -> Outcome JsVal * World;
  host_write : string -> string -> World -> Outcome unit * World
}.

Record State `{Host} : Type := mkState {
  world : World;
  trace : list Event
}.

Arguments mkState {H} world trace.

Definition emit `{Host} (e : Event) (st : State) : State :=
  mkState (world st) (trace st ++ [e])%list.

(** Computations: they read and change the world, leave events in the
    trace, and end with a value or a thrown value. *)
Definition M `{Host} (A : Type) : Type := State -> Outcome A * State.

Definition ret `{Host} {A} (a : A) : M A := fun st => (Returned a, st).

Definition throw `{Host} {A} (e : JsVal) : M A := fun st => (Thrown e, st).

Definition bind `{Host} {A B} (m : M A) (k : A -> M B) : M B :=
  fun st =>
    match m st with
    | (Returned a, st') => k a st'
    | (Thrown e, st') => (Thrown e, st')
    end.

Notation "x <- m ;; k" := (bind m (fun x => k))
  (at level 61, m at next level, right associativity).
Notation "m ;; k" := (bind m (fun _ => k))
  (at level 61, right associativity).

Definition lift `{Host} {A} (o : Outcome A) : M A := fun st => (o, st).

(** [try { body } catch (e) { handler }] *)
Definition try_catch `{Host} {A} (body : M A) (handler : JsVal -> M A) : M A :=
  fun st =>
    match body st with
    | (Returned a, st') => (Returned a, st')
    | (Thrown e, st') => handler e st'
    end.

Fixpoint for_of `{Host} {A} (items : list A) (body : A -> M unit) : M unit :=
  match items with
  | [] => ret tt
  | x :: rest => body x ;; for_of rest body
  end.

Module console.
Definition log `{Host} (v : JsVal) : M unit :=
  fun st => (Returned tt, emit (ConsoleLog v) st).
Definition error `{Host} (v : JsVal) : M unit :=
  fun st => (Returned tt, emit (ConsoleError v) st).
End console.

Module fs.
(** [fs.writeFileSync(path, data)]: data that is not a string is refused
    before the file is touched. *)
Definition writeFileSync `{Host} (path : string) (data : option string) : M unit :=
  match data with
  | None =>
      throw (TypeError "The data argument must be of type string or an instance of Buffer, TypedArray, or DataView. Received undefined")
  | Some text =>
      fun st =>
        let (r, w) := host_write path text (world st) in
        (r, mkState w (trace st ++ [WriteFile path text])%list)
  end.
End fs.

(** [new Date(s)]: the time value of the date, [None] for an invalid date. *)
Definition Date_new `{Host} (s : string) : option Z :=
  match host_parse s with
  | Some t => Date.TimeClip t
  | None => None
  end.

(** [d.toISOString()] throws a RangeError on an invalid date. *)
Definition toISOString `{Host} (d : option Z) : M string :=
  match d with
  | Some t => ret (Date.iso t)
  | None => throw (RangeError "Invalid time value")
  end.

(** ** The generated client (src/.api/apis/attio/index.ts) *)

Module sdk.

Definition core_fetch `{Host} (path method : string) (args : list JsVal) : M JsVal :=
  fun st =>
    let (r, w) := host_fetch path method args (world st) in
    (r, mkState w (trace st ++ [Fetch path method args])%list).

Definition auth `{Host} (token : JsVal) : M unit :=
  fun st => (Returned tt, emit (Auth token) st).

Definition postV2ObjectsCompaniesRecordsQuery `{Host} (body : JsVal) : M JsVal :=
  core_fetch "/v2/objects/companies/records/query" "post" [body].

Definition postV2ObjectsCompaniesRecords `{Host} (body : JsVal) : M JsVal :=
  core_fetch "/v2/objects/companies/records" "post" [body].

Definition deleteV2ObjectsCompaniesRecordsRecord_id `{Host} (metadata : JsVal) : M JsVal :=
  core_fetch "/v2/objects/companies/records/{record_id}" "delete" [metadata].

Definition putV2ObjectsPeopleRecords `{Host} (body metadata : JsVal) : M JsVal :=
  core_fetch "/v2/objects/people/records" "put" [body; metadata].

End sdk.

(** ** The script (src/unnamed/part_000) *)

Definition fetchCompanies `{Host} : M JsVal :=
  res <- sdk.postV2ObjectsCompaniesRecordsQuery (JObj []) ;;
  data <- lift (get_prop res "data") ;;
  listing <- lift (get_prop data "data") ;;
  fs.writeFileSync "./out/companies.json" (JSON.stringify listing 2) ;;
  ret JUndefined.

Definition createCompany `{Host} (name domain : string) : M JsVal :=
  res <- sdk.postV2ObjectsCompaniesRecords
           (JObj [("data",
              JObj [("values",
                JObj [("name", JArr [JObj [("value", JStr name)]]);
                      ("domains", JArr [JObj [("domain", JStr domain)]])])])]) ;;
  console.log res ;;
  ret JUndefined.

Definition deleteCompany `{Host} (id : string) : M JsVal :=
  res <- sdk.deleteV2ObjectsCompaniesRecordsRecord_id
           (JObj [("record_id", JStr id)]) ;;
  console.log res ;;
  ret JUndefined.

Definition assertUser `{Host} (email name last_session : string) : M JsVal :=
  let attr := replace "@" "%40" email in
  last_session_iso <- toISOString (Date_new last_session) ;;
  try_catch
    (let first_name := index (split space name) 0 in
     let last_name := index (split space name) 1 in
     stamp <- toISOString (Date_new last_session) ;;
     res <- sdk.putV2ObjectsPeopleRecords
              (JObj [("data",
                 JObj [("values",
                   JObj [("email_addresses",
                            JArr [JObj [("email_address", JStr email)]]);
                         ("name",
                            JArr [JObj [("full_name", JStr name);
                                        ("first_name", first_name);
                                        ("last_name", last_name)]]);
                         ("last_session",
                            JObj [("value", JStr stamp)])])])])
              (JObj [("matching_attribute", JStr "email_addresses")]) ;;
     ret res)
    (fun e =>
       payload <- lift (get_prop e "data") ;;
       console.error payload ;;
       ret JUndefined).

(** An input user record. *)
Record User : Type := mkUser {
  email : string;
  name : string;
  last_session : string
}.

(** The identifier [users] as the batch sees it.  Both declarations of it
    (the JSON import and the [JSON.parse] of the file) are commented out and
    nothing else in the module binds the name: it resolves to nothing. *)
Definition users : option (list User) := None.

(** The body of the closing [async] function, for a given resolution of the
    identifier it iterates over. *)
Definition batch `{Host} (users : option (list User)) : M JsVal :=
  match users with
  | None => throw (ReferenceError "users is not defined")
  | Some records =>
      for_of records
        (fun user =>
           res <- assertUser (email user) (name user) (last_session user) ;;
           console.log res) ;;
      ret JUndefined
  end.

(** The module from top to bottom: authenticate the client with the token
    from the environment, then run the batch. *)
Definition main `{Host} (token : JsVal) : M JsVal :=
  sdk.auth token ;;
  batch users.

(** ** Observing a run *)

(** A call observed from a world with an empty trace: how it ends, what it
    did, and the world it leaves. *)
Definition init `{Host} (w : World) : State := mkState w [].

Definition outcome_of `{Host} {A} (m : M A) (w : World) : Outcome A :=
  fst (m (init w)).

Definition events_of `{Host} {A} (m : M A) (w : World) : list Event :=
  trace (snd (m (init w))).

Definition world_after `{Host} {A} (m : M A) (w : World) : World :=
  world (snd (m (init w))).

(** The host's answer to the first thing a call does, when that is a
    request: [Returned] for a response, [Thrown] for a rejection. *)
Definition reply_of `{Host} {A} (m : M A) (w : World) : option (Outcome JsVal) :=
  match events_of m w with
  | Fetch path method args :: _ => Some (fst (host_fetch path method args w))
  | _ => None
  end.

Definition is_fetch (ev : Event) : bool :=
  match ev with
  | Fetch _ _ _ => true
  | _ => false
  end.

(** The (body, metadata) pairs of the people upsert requests in a trace. *)
Definition upserts (tr : list Event) : list (JsVal * JsVal) :=
  flat_map
    (fun ev =>
       match ev with
       | Fetch path method [body; metadata] =>
           if String.eqb path "/v2/objects/people/records" && String.eqb method "put"
           then [(body, metadata)]
           else []
       | _ => []
       end) tr.

(** The two arguments [assertUser] passes to the client for a record whose
    [last_session] serialises to [stamp]; [assertUser_run] below proves
    that this is what the function sends. *)
Definition upsert_args (email name stamp : string) : list JsVal :=
  [JObj [("data",
     JObj [("values",
       JObj [("email_addresses", JArr [JObj [("email_address", JStr email)]]);
             ("name",
                JArr [JObj [("full_name", JStr name);
                            ("first_name", index (split space name) 0);
                            ("last_name", index (split space name) 1)]]);
             ("last_session", JObj [("value", JStr stamp)])])])];
   JObj [("matching_attribute", JStr "email_addresses")]].

(** Member access chains, [v.a.b[0].c]. *)
Inductive Key : Type :=
| Field (k : string)
| Item (i : nat).

Definition get_item (v : JsVal) (i : nat) : Outcome JsVal :=
  match v with
  | JUndefined => Thrown (TypeError "Cannot read properties of undefined")
  | JNull => Thrown (TypeError "Cannot read properties of null")
  | JArr items =>
      Returned match nth_error items i with Some x => x | None => JUndefined end
  | _ => Returned JUndefined
  end.

Fixpoint select (v : JsVal) (path : list Key) : Outcome JsVal :=
  match path with
  | [] => Returned v
  | key :: rest =>
      match (match key with Field k => get_prop v k | Item i => get_item v i end) with
      | Returned x => select x rest
      | Thrown e => Thrown e
      end
  end.

(** Where the request body keeps a part of the name. *)
Definition name_part (k : string) : list Key :=
  [Field "data"; Field "values"; Field "name"; Item 0; Field k].

(** First name, last name and full name of each request. *)
Definition name_parts (requests : list (JsVal * JsVal))
    : list (Outcome JsVal * Outcome JsVal * Outcome JsVal) :=
  map (fun request =>
         (select (fst request) (name_part "first_name"),
          select (fst request) (name_part "last_name"),
          select (fst request) (name_part "full_name")))
      requests.

(** The parts of a name the amended splitting rule speaks of: the text
    before the first space (the whole string when there is none) and the
    text after it. *)
Fixpoint before_space (s : string) : string :=
  match s with
  | EmptyString => EmptyString
  | String c rest =>
      if Ascii.eqb c space then EmptyString else String c (before_space rest)
  end.

Fixpoint after_space (s : string) : option string :=
  match s with
  | EmptyString => None
  | String c rest => if Ascii.eqb c space then Some rest else after_space rest
  end.

(** The reading of the splitting rule under which [last_name] is everything
    after the first space. *)
Definition last_name_is_remainder `{Host}
    (email name last_session : string) (w : World) : Prop :=
  forall rest,
    after_space name = Some rest ->
    map (fun request => select (fst request) (name_part "last_name"))
        (upserts (events_of (assertUser email name last_session) w))
    = [Returned (JStr rest)].

(** ** A test double for the host

    The world is the list of replies the client will give, in order; the
    file system accepts every write; the date parser is a host in UTC that
    knows the one string of the specification's example. *)
Module Double.

Definition parse (s : string) : option Z :=
  if String.eqb s "April 19, 2024, 1:19 PM" then Some 1713532740000%Z
  else None.

Definition fetch (path method : string) (args : list JsVal)
    (w : list (Outcome JsVal)) : Outcome JsVal * list (Outcome JsVal) :=
  match w with
  | reply :: rest => (reply, rest)
  | [] => (Thrown (mkError "Error" "fetch failed"), [])
  end.

Definition write (path data : string) (w : list (Outcome JsVal))
    : Outcome unit * list (Outcome JsVal) :=
  (Returned tt, w).

Definition host : Host :=
  {| World := list (Outcome JsVal);
     host_parse := parse;
     host_fetch := fetch;
     host_write := write |}.

(** A validation failure as the client reports it. *)
Definition failure : JsVal :=
  JObj [("status", JNum (Number.of_Z 400));
        ("data", JObj [("status_code", JNum (Number.of_Z 400));
                       ("type", JStr "invalid_request_error");
                       ("code", JStr "validation_type")])].

Definition listing : JsVal :=
  JArr [JObj [("id", JObj [("record_id", JStr "3db23152")]);
              ("values", JObj [("name", JArr [JObj [("value", JStr "Nike")]])])]].

Definition response : JsVal :=
  JObj [("data", JObj [("data", listing)]); ("status", JNum (Number.of_Z 200))].



End Double.

(** ** More vocabulary for traces *)

Definition is_log (ev : Event) : bool :=
  match ev with
  | ConsoleLog _ => true
  | _ => false
  end.

Definition is_write (ev : Event) : bool :=
  match ev with
  | WriteFile _ _ => true
  | _ => false
  end.

(** The timestamp a request carries. *)
Definition stamp_of (request : JsVal * JsVal) : Outcome JsVal :=
  select (fst request)
    [Field "data"; Field "values"; Field "last_session"; Field "value"].

(** The events of one round of the loop: the request and the line that
    [console.log] prints for the record. *)
Definition in_round (ev : Event) : bool := is_fetch ev || is_log ev.

(** The host never rejects a request with [undefined] or [null]: the
    [data] of every rejection reason can be read.  The client behind [sdk]
    rejects with error objects. *)
Definition rejects_with_errors `{Host} : Prop :=
  forall path method args w e w',
    host_fetch path method args w = (Thrown e, w') ->
    exists payload, get_prop e "data" = Returned payload.

(** The request the loop sends for a record whose date parsed to [t]. *)
Definition upsert_request (record : User * Z) : Event :=
  Fetch "/v2/objects/people/records" "put"
    (upsert_args (email (fst record)) (name (fst record)) (Date.iso (snd record))).

(** ** A second test double

    A client that counts its requests and rejects every other one,
    starting with the first (world 0), always with an error object. *)
Module Flaky.

Definition fetch (path method : string) (args : list JsVal) (n : nat)
    : Outcome JsVal * nat :=
  if Nat.even n then (Thrown Double.failure, S n)
  else (Returned Double.response, S n).

Definition write (path data : string) (n : nat) : Outcome unit * nat :=
  (Returned tt, n).

Definition host : Host :=
  {| World := nat;
     host_parse := Double.parse;
     host_fetch := fetch;
     host_write := write |}.

End Flaky.

(** ** A third test double

    The client of the first double in front of a file system that refuses
    every write, as when the [out] directory does not exist. *)
Module NoDir.

Definition denied : JsVal :=
  mkError "Error" "ENOENT: no such file or directory, open './out/companies.json'".

Definition write (path data : string) (w : list (Outcome JsVal))
    : Outcome unit * list (Outcome JsVal) :=
  (Thrown denied, w).

Definition host : Host :=
  {| World := list (Outcome JsVal);
     host_parse := Double.parse;
     host_fetch := Double.fetch;
     host_write := write |}.

End NoDir.

(** ** A fourth test double

    A client that is down for one path only: it rejects every request to
    that path and answers all others. *)
Module Outage.

Definition fetch (down path method : string) (args : list JsVal) (w : unit)
    : Outcome JsVal * unit :=
  if String.eqb path down then (Thrown Double.failure, tt)
  else (Returned Double.response, tt).

Definition write (path data : string) (w : unit) : Outcome unit * unit :=
  (Returned tt, tt).

Definition host (down : string) : Host :=
  {| World := unit;
     host_parse := Double.parse;
     host_fetch := fetch down;
     host_write := write |}.

End Outage.

(** ** The whole generated client

    Every method of the client class is one call of [core.fetch] with a
    fixed path and HTTP method and the method's own arguments, in the order
    of its signature.  The methods are listed here in the order of the
    source file. *)
Module client.

Inductive Operation : Type :=
| postV2ObjectsPeopleRecordsQuery
| postV2ObjectsPeopleRecords
| putV2ObjectsPeopleRecords
| getV2ObjectsPeopleRecordsRecord_id
| patchV2ObjectsPeopleRecordsRecord_id
| deleteV2ObjectsPeopleRecordsRecord_id
| getV2ObjectsPeopleRecordsRecord_idAttributesAttributeValues
| getV2ObjectsPeopleRecordsRecord_idEntries
| postV2ObjectsCompaniesRecordsQuery
| postV2ObjectsCompaniesRecords
| putV2ObjectsCompaniesRecords
| getV2ObjectsCompaniesRecordsRecord_id
| patchV2ObjectsCompaniesRecordsRecord_id
| deleteV2ObjectsCompaniesRecordsRecord_id
| getV2ObjectsCompaniesRecordsRecord_idAttributesAttributeValues
| getV2ObjectsCompaniesRecordsRecord_idEntries
| postV2ObjectsUsersRecordsQuery
| postV2ObjectsUsersRecords
| putV2ObjectsUsersRecords
| getV2ObjectsUsersRecordsRecord_id
| patchV2ObjectsUsersRecordsRecord_id
| deleteV2ObjectsUsersRecordsRecord_id
| getV2ObjectsUsersRecordsRecord_idAttributesAttributeValues
| getV2ObjectsUsersRecordsRecord_idEntries
| putV2ObjectsDealsRecords
| postV2ObjectsDealsRecords
| deleteV2ObjectsDealsRecordsRecord_id
| getV2ObjectsDealsRecordsRecord_id
| patchV2ObjectsDealsRecordsRecord_id
| getV2ObjectsDealsRecordsRecord_idAttributesAttributeValues
| getV2ObjectsDealsRecordsRecord_idEntries
| postV2ObjectsDealsRecordsQuery
| putV2ObjectsWorkspacesRecords
| postV2ObjectsWorkspacesRecords
| deleteV2ObjectsWorkspacesRecordsRecord_id
| getV2ObjectsWorkspacesRecordsRecord_id
| patchV2ObjectsWorkspacesRecordsRecord_id
| getV2ObjectsWorkspacesRecordsRecord_idAttributesAttributeValues
| getV2ObjectsWorkspacesRecordsRecord_idEntries
| postV2ObjectsWorkspacesRecordsQuery.

Inductive Param : Type :=
| body
| metadata.

Definition path (op : Operation) : string :=
  match op with
  | postV2ObjectsPeopleRecordsQuery =>
      "/v2/objects/people/records/query"
  | postV2ObjectsPeopleRecords =>
      "/v2/objects/people/records"
  | putV2ObjectsPeopleRecords =>
      "/v2/objects/people/records"
  | getV2ObjectsPeopleRecordsRecord_id =>
      "/v2/objects/people/records/{record_id}"
  | patchV2ObjectsPeopleRecordsRecord_id =>
      "/v2/objects/people/records/{record_id}"
  | deleteV2ObjectsPeopleRecordsRecord_id =>
      "/v2/objects/people/records/{record_id}"
  | getV2ObjectsPeopleRecordsRecord_idAttributesAttributeValues =>
      "/v2/objects/people/records/{record_id}/attributes/{attribute}/values"
  | getV2ObjectsPeopleRecordsRecord_idEntries =>
      "/v2/objects/people/records/{record_id}/entries"
  | postV2ObjectsCompaniesRecordsQuery =>
      "/v2/objects/companies/records/query"
  | postV2ObjectsCompaniesRecords =>
      "/v2/objects/companies/records"
  | putV2ObjectsCompaniesRecords =>
      "/v2/objects/companies/records"
  | getV2ObjectsCompaniesRecordsRecord_id =>
      "/v2/objects/companies/records/{record_id}"
  | patchV2ObjectsCompaniesRecordsRecord_id =>
      "/v2/objects/companies/records/{record_id}"
  | deleteV2ObjectsCompaniesRecordsRecord_id =>
      "/v2/objects/companies/records/{record_id}"
  | getV2ObjectsCompaniesRecordsRecord_idAttributesAttributeValues =>
      "/v2/objects/companies/records/{record_id}/attributes/{attribute}/values"
  | getV2ObjectsCompaniesRecordsRecord_idEntries =>
      "/v2/objects/companies/records/{record_id}/entries"
  | postV2ObjectsUsersRecordsQuery =>
      "/v2/objects/users/records/query"
  | postV2ObjectsUsersRecords =>
      "/v2/objects/users/records"
  | putV2ObjectsUsersRecords =>
      "/v2/objects/users/records"
  | getV2ObjectsUsersRecordsRecord_id =>
      "/v2/objects/users/records/{record_id}"
  | patchV2ObjectsUsersRecordsRecord_id =>
      "/v2/objects/users/records/{record_id}"
  | deleteV2ObjectsUsersRecordsRecord_id =>
      "/v2/objects/users/records/{record_id}"
  | getV2ObjectsUsersRecordsRecord_idAttributesAttributeValues =>
      "/v2/objects/users/records/{record_id}/attributes/{attribute}/values"
  | getV2ObjectsUsersRecordsRecord_idEntries =>
      "/v2/objects/users/records/{record_id}/entries"
  | putV2ObjectsDealsRecords =>
      "/v2/objects/deals/records"
  | postV2ObjectsDealsRecords =>
      "/v2/objects/deals/records"
  | deleteV2ObjectsDealsRecordsRecord_id =>
      "/v2/objects/deals/records/{record_id}"
  | getV2ObjectsDealsRecordsRecord_id =>
      "/v2/objects/deals/records/{record_id}"
  | patchV2ObjectsDealsRecordsRecord_id =>
      "/v2/objects/deals/records/{record_id}"
  | getV2ObjectsDealsRecordsRecord_idAttributesAttributeValues =>
      "/v2/objects/deals/records/{record_id}/attributes/{attribute}/values"
  | getV2ObjectsDealsRecordsRecord_idEntries =>
      "/v2/objects/deals/records/{record_id}/entries"
  | postV2ObjectsDealsRecordsQuery =>
      "/v2/objects/deals/records/query"
  | putV2ObjectsWorkspacesRecords =>
      "/v2/objects/workspaces/records"
  | postV2ObjectsWorkspacesRecords =>
      "/v2/objects/workspaces/records"
  | deleteV2ObjectsWorkspacesRecordsRecord_id =>
      "/v2/objects/workspaces/records/{record_id}"
  | getV2ObjectsWorkspacesRecordsRecord_id =>
      "/v2/objects/workspaces/records/{record_id}"
  | patchV2ObjectsWorkspacesRecordsRecord_id =>
      "/v2/objects/workspaces/records/{record_id}"
  | getV2ObjectsWorkspacesRecordsRecord_idAttributesAttributeValues =>
      "/v2/objects/workspaces/records/{record_id}/attributes/{attribute}/values"
  | getV2ObjectsWorkspacesRecordsRecord_idEntries =>
      "/v2/objects/workspaces/records/{record_id}/entries"
  | postV2ObjectsWorkspacesRecordsQuery =>
      "/v2/objects/workspaces/records/query"
  end.

Definition method (op : Operation) : string :=
  match op with
  | postV2ObjectsPeopleRecordsQuery => "post"
  | postV2ObjectsPeopleRecords => "post"
  | putV2ObjectsPeopleRecords => "put"
  | getV2ObjectsPeopleRecordsRecord_id => "get"
  | patchV2ObjectsPeopleRecordsRecord_id => "patch"
  | deleteV2ObjectsPeopleRecordsRecord_id => "delete"
  | getV2ObjectsPeopleRecordsRecord_idAttributesAttributeValues => "get"
  | getV2ObjectsPeopleRecordsRecord_idEntries => "get"
  | postV2ObjectsCompaniesRecordsQuery => "post"
  | postV2ObjectsCompaniesRecords => "post"
  | putV2ObjectsCompaniesRecords => "put"
  | getV2ObjectsCompaniesRecordsRecord_id => "get"
  | patchV2ObjectsCompaniesRecordsRecord_id => "patch"
  | deleteV2ObjectsCompaniesRecordsRecord_id => "delete"
  | getV2ObjectsCompaniesRecordsRecord_idAttributesAttributeValues => "get"
  | getV2ObjectsCompaniesRecordsRecord_idEntries => "get"
  | postV2ObjectsUsersRecordsQuery => "post"
  | postV2ObjectsUsersRecords => "post"
  | putV2ObjectsUsersRecords => "put"
  | getV2ObjectsUsersRecordsRecord_id => "get"
  | patchV2ObjectsUsersRecordsRecord_id => "patch"
  | deleteV2ObjectsUsersRecordsRecord_id => "delete"
  | getV2ObjectsUsersRecordsRecord_idAttributesAttributeValues => "get"
  | getV2ObjectsUsersRecordsRecord_idEntries => "get"
  | putV2ObjectsDealsRecords => "put"
  | postV2ObjectsDealsRecords => "post"
  | deleteV2ObjectsDealsRecordsRecord_id => "delete"
  | getV2ObjectsDealsRecordsRecord_id => "get"
  | patchV2ObjectsDealsRecordsRecord_id => "patch"
  | getV2ObjectsDealsRecordsRecord_idAttributesAttributeValues => "get"
  | getV2ObjectsDealsRecordsRecord_idEntries => "get"
  | postV2ObjectsDealsRecordsQuery => "post"
  | putV2ObjectsWorkspacesRecords => "put"
  | postV2ObjectsWorkspacesRecords => "post"
  | deleteV2ObjectsWorkspacesRecordsRecord_id => "delete"
  | getV2ObjectsWorkspacesRecordsRecord_id => "get"
  | patchV2ObjectsWorkspacesRecordsRecord_id => "patch"
  | getV2ObjectsWorkspacesRecordsRecord_idAttributesAttributeValues => "get"
  | getV2ObjectsWorkspacesRecordsRecord_idEntries => "get"
  | postV2ObjectsWorkspacesRecordsQuery => "post"
  end.

Definition params (op : Operation) : list Param :=
  match op with
  | postV2ObjectsPeopleRecordsQuery => [body]
  | postV2ObjectsPeopleRecords => [body]
  | putV2ObjectsPeopleRecords => [body; metadata]
  | getV2ObjectsPeopleRecordsRecord_id => [metadata]
  | patchV2ObjectsPeopleRecordsRecord_id => [body; metadata]
  | deleteV2ObjectsPeopleRecordsRecord_id => [metadata]
  | getV2ObjectsPeopleRecordsRecord_idAttributesAttributeValues => [metadata]
  | getV2ObjectsPeopleRecordsRecord_idEntries => [metadata]
  | postV2ObjectsCompaniesRecordsQuery => [body]
  | postV2ObjectsCompaniesRecords => [body]
  | putV2ObjectsCompaniesRecords => [body; metadata]
  | getV2ObjectsCompaniesRecordsRecord_id => [metadata]
  | patchV2ObjectsCompaniesRecordsRecord_id => [body; metadata]
  | deleteV2ObjectsCompaniesRecordsRecord_id => [metadata]
  | getV2ObjectsCompaniesRecordsRecord_idAttributesAttributeValues => [metadata]
  | getV2ObjectsCompaniesRecordsRecord_idEntries => [metadata]
  | postV2ObjectsUsersRecordsQuery => [body]
  | postV2ObjectsUsersRecords => [body]
  | putV2ObjectsUsersRecords => [body; metadata]
  | getV2ObjectsUsersRecordsRecord_id => [metadata]
  | patchV2ObjectsUsersRecordsRecord_id => [body; metadata]
  | deleteV2ObjectsUsersRecordsRecord_id => [metadata]
  | getV2ObjectsUsersRecordsRecord_idAttributesAttributeValues => [metadata]
  | getV2ObjectsUsersRecordsRecord_idEntries => [metadata]
  | putV2ObjectsDealsRecords => [body; metadata]
  | postV2ObjectsDealsRecords => [body]
  | deleteV2ObjectsDealsRecordsRecord_id => [metadata]
  | getV2ObjectsDealsRecordsRecord_id => [metadata]
  | patchV2ObjectsDealsRecordsRecord_id => [body; metadata]
  | getV2ObjectsDealsRecordsRecord_idAttributesAttributeValues => [metadata]
  | getV2ObjectsDealsRecordsRecord_idEntries => [metadata]
  | postV2ObjectsDealsRecordsQuery => [body]
  | putV2ObjectsWorkspacesRecords => [body; metadata]
  | postV2ObjectsWorkspacesRecords => [body]
  | deleteV2ObjectsWorkspacesRecordsRecord_id => [metadata]
  | getV2ObjectsWorkspacesRecordsRecord_id => [metadata]
  | patchV2ObjectsWorkspacesRecordsRecord_id => [body; metadata]
  | getV2ObjectsWorkspacesRecordsRecord_idAttributesAttributeValues => [metadata]
  | getV2ObjectsWorkspacesRecordsRecord_idEntries => [metadata]
  | postV2ObjectsWorkspacesRecordsQuery => [body]
  end.

(** Calling a method: the arguments go to [core.fetch] as they are. *)
Definition call `{Host} (op : Operation) (args : list JsVal) : M JsVal :=
  sdk.core_fetch (path op) (method op) args.

(** Whether a path has a placeholder, such as the record identifier, to be
    filled from the metadata. *)
Fixpoint has_placeholder (s : string) : bool :=
  match s with
  | EmptyString => false
  | String c rest => Ascii.eqb c "{" || has_placeholder rest
  end.

(** The arguments that go with an HTTP method in this client. *)
Definition convention (m : string) : list Param :=
  if String.eqb m "post" then [body]
  else if String.eqb m "put" || String.eqb m "patch" then [body; metadata]
  else [metadata].

End client.


(** * Properties *)

(** ** The calendar *)

Module DateFacts.
Import Date.
Local Open Scope Z_scope.

Lemma DayFromYear_succ (y : Z) : DayFromYear (y + 1) = DayFromYear y + DaysInYear y.
Proof.
  unfold DayFromYear, DaysInYear.
  destruct (y mod 4 =? 0) eqn:E4; destruct (y mod 100 =? 0) eqn:E100;
    destruct (y mod 400 =? 0) eqn:E400; cbn [andb orb negb];
    rewrite ?Z.eqb_eq, ?Z.eqb_neq in *;
    Z.to_euclidean_division_equations; lia.
Qed.

(** [YearFromDay] finds the year that contains the day. *)
Lemma YearFromDay_spec (d : Z) :
  DayFromYear (YearFromDay d) <= d < DayFromYear (YearFromDay d + 1).
Proof.
  unfold YearFromDay. cbv zeta.
  destruct (DayFromYear (1970 + 400 * d / 146097) <=? d) eqn:E1.
  - destruct (DayFromYear (1970 + 400 * d / 146097 + 1) <=? d) eqn:E2.
    + apply Z.leb_le in E1, E2. split; [lia |].
      unfold DayFromYear in *. Z.to_euclidean_division_equations; lia.
    + apply Z.leb_le in E1. apply Z.leb_gt in E2. lia.
  - apply Z.leb_gt in E1.
    replace (1970 + 400 * d / 146097 - 1 + 1) with (1970 + 400 * d / 146097) by lia.
    split; [| lia]. unfold DayFromYear in *. Z.to_euclidean_division_equations; lia.
Qed.

Lemma DaysInYear_cases (y : Z) : DaysInYear y = 365 \/ DaysInYear y = 366.
Proof. unfold DaysInYear. destruct (_ && _); auto. Qed.

Lemma DayWithinYear_range (t : Z) :
  0 <= DayWithinYear t < DaysInYear (YearFromTime t).
Proof.
  unfold DayWithinYear, YearFromTime.
  pose proof (YearFromDay_spec (Day t)) as Hy.
  rewrite DayFromYear_succ in Hy. lia.
Qed.

Lemma leap_day_cases (y : Z) : leap_day y = 0 \/ leap_day y = 1.
Proof. unfold leap_day. destruct (DaysInYear_cases y) as [-> | ->]; auto. Qed.

Lemma InLeapYear_leap_day (t : Z) : InLeapYear t = leap_day (YearFromTime t).
Proof.
  unfold InLeapYear, leap_day.
  destruct (DaysInYear_cases (YearFromTime t)) as [-> | ->]; reflexivity.
Qed.

Lemma YearFromTime_range (t : Z) :
  Z.abs t <= maxTime -> -271821 <= YearFromTime t <= 275760.
Proof.
  intros Ht. unfold YearFromTime.
  pose proof (YearFromDay_spec (Day t)) as Hy.
  assert (-100000000 <= Day t <= 100000000) as Hd.
  { unfold Day, msPerDay, maxTime in *. Z.to_euclidean_division_equations; lia. }
  revert Hy. generalize (YearFromDay (Day t)) as y. intros y Hy.
  unfold DayFromYear in Hy. Z.to_euclidean_division_equations; lia.
Qed.

Ltac split_ifs :=
  repeat match goal with
         | |- context [if ?b then _ else _] =>
             let E := fresh "E" in destruct b eqn:E
         end.

Ltac next_month :=
  match goal with
  | |- context [month_start _ (?a + 1)] =>
      let r := eval vm_compute in (a + 1) in change (a + 1) with r
  end.

(** The month and the date of a time value, against the calendar of its
    year: the date lies within the month, and month start plus date gives
    back the day within the year. *)
Lemma month_date_of_time (t : Z) :
  let l := leap_day (YearFromTime t) in
  let m := MonthFromTime t in
  0 <= m <= 11
  /\ 1 <= DateFromTime t <= month_start l (m + 1) - month_start l m
  /\ month_start l m + DateFromTime t - 1 = DayWithinYear t.
Proof.
  pose proof (DayWithinYear_range t) as Hd.
  unfold DateFromTime, MonthFromTime. rewrite InLeapYear_leap_day.
  unfold leap_day in *. cbv zeta.
  destruct (DaysInYear_cases (YearFromTime t)) as [Hl | Hl]; rewrite Hl in *;
    generalize dependent (DayWithinYear t); intros d Hd;
    split_ifs; next_month; cbn [month_start]; rewrite ?Z.ltb_lt, ?Z.ltb_ge in *; lia.
Qed.

Lemma time_within_day (t : Z) :
  0 <= HourFromTime t < 24 /\ 0 <= MinFromTime t < 60
  /\ 0 <= SecFromTime t < 60 /\ 0 <= msFromTime t < 1000
  /\ MakeTime (HourFromTime t) (MinFromTime t) (SecFromTime t) (msFromTime t)
     = TimeWithinDay t.
Proof.
  unfold HourFromTime, MinFromTime, SecFromTime, msFromTime, MakeTime,
    TimeWithinDay, msPerDay.
  Z.to_euclidean_division_equations; lia.
Qed.

(** The fields of a time value put together again give the time value. *)
Lemma MakeDate_fields (t : Z) :
  MakeDate (MakeDay (YearFromTime t) (MonthFromTime t) (DateFromTime t))
           (MakeTime (HourFromTime t) (MinFromTime t) (SecFromTime t) (msFromTime t))
  = t.
Proof.
  destruct (month_date_of_time t) as (Hm & _ & Hday). cbv zeta in *.
  destruct (time_within_day t) as (_ & _ & _ & _ & ->).
  unfold MakeDate, MakeDay. cbv zeta.
  rewrite (Z.div_small (MonthFromTime t) 12), (Z.mod_small (MonthFromTime t) 12) by lia.
  rewrite Z.add_0_r.
  unfold DayWithinYear in Hday. unfold TimeWithinDay, Day, msPerDay in *.
  Z.to_euclidean_division_equations; lia.
Qed.


(** *** Digits written and read back *)

Lemma append_assoc (a b c : string) : ((a ++ b) ++ c = a ++ (b ++ c))%string.
Proof. induction a as [| x a IH]; cbn; [reflexivity | now rewrite IH]. Qed.

Lemma digit_value_digit (v : Z) : digit_value (digit v) = Some (v mod 10).
Proof.
  unfold digit_value, digit.
  assert (0 <= v mod 10 < 10) as Hv by (apply Z.mod_pos_bound; lia).
  rewrite N_ascii_embedding by lia.
  replace ((48 <=? 48 + Z.to_N (v mod 10))%N && (48 + Z.to_N (v mod 10) <=? 57)%N)
    with true.
  - f_equal. lia.
  - symmetry. apply andb_true_iff. split; apply N.leb_le; lia.
Qed.

Lemma digit_is_no_sign (v : Z) (c : ascii) :
  digit_value c = None -> Ascii.eqb (digit v) c = false.
Proof.
  intros Hc. destruct (Ascii.eqb_spec (digit v) c) as [Heq | _]; [| reflexivity].
  rewrite <- Heq, digit_value_digit in Hc. discriminate.
Qed.

Lemma digits_app (n m : nat) (acc : Z) (s : string) :
  digits (n + m) acc s
  = and_then (digits n acc s) (fun r => digits m (fst r) (snd r)).
Proof.
  revert acc s. induction n as [| n IH]; intros acc s; [reflexivity |].
  cbn [Nat.add digits]. destruct s as [| c s]; [reflexivity |].
  destruct (digit_value c); [apply IH | reflexivity].
Qed.

(** Reading [n] digits from a text that starts with a number padded to [n]
    digits gives the number (its last [n] digits) and the rest of the
    text. *)
Lemma digits_pad (n : nat) (acc v : Z) (rest : string) :
  digits n acc (pad n v ++ rest)%string
  = Some (acc * 10 ^ Z.of_nat n + v mod 10 ^ Z.of_nat n, rest).
Proof.
  revert acc v rest. induction n as [| n IH]; intros acc v rest.
  - cbn. rewrite Z.mod_1_r. f_equal. f_equal. lia.
  - cbn [pad]. rewrite append_assoc. cbn [String.append].
    replace (S n) with (n + 1)%nat by lia.
    rewrite digits_app, IH. cbn [and_then fst snd digits].
    rewrite digit_value_digit. f_equal. f_equal.
    rewrite Nat2Z.inj_add, Z.pow_add_r by lia.
    change (10 ^ Z.of_nat 1) with 10.
    assert (0 < 10 ^ Z.of_nat n) as Hp by (apply Z.pow_pos_nonneg; lia).
    rewrite (Z.mul_comm (10 ^ Z.of_nat n) 10).
    rewrite (Z.rem_mul_r v 10 (10 ^ Z.of_nat n)) by lia.
    ring.
Qed.

Lemma digits_pad_small (n : nat) (v : Z) (rest : string) :
  0 <= v < 10 ^ Z.of_nat n ->
  digits n 0 (pad n v ++ rest)%string = Some (v, rest).
Proof.
  intros Hv. rewrite digits_pad, Z.mod_small by exact Hv. reflexivity.
Qed.

Lemma year_field_year_string (y : Z) (rest : string) :
  -999999 <= y <= 999999 ->
  year_field (year_string y ++ rest)%string = Some (y, rest).
Proof.
  intros Hy. unfold year_string.
  destruct ((0 <=? y) && (y <=? 9999)) eqn:Erange.
  - apply andb_true_iff in Erange as [Hlo Hhi].
    apply Z.leb_le in Hlo, Hhi.
    rewrite <- (digits_pad_small 4 y rest) by (cbn; lia).
    cbn [pad String.append]. unfold year_field.
    rewrite !digit_is_no_sign by reflexivity. reflexivity.
  - assert (y < 0 \/ 9999 < y) as Hout.
    { apply andb_false_iff in Erange as [E | E]; apply Z.leb_gt in E; lia. }
    destruct (y <? 0) eqn:Eneg.
    + apply Z.ltb_lt in Eneg. cbn [String.append year_field Ascii.eqb Bool.eqb].
      rewrite digits_pad_small by (cbn; lia).
      destruct (Z.eqb_spec (Z.abs y) 0) as [H0 | _]; [lia |].
      f_equal. f_equal. lia.
    + apply Z.ltb_ge in Eneg. cbn [String.append year_field Ascii.eqb Bool.eqb].
      rewrite digits_pad_small by (cbn; lia).
      f_equal. f_equal. lia.
Qed.

(** The text [toISOString] writes for a time value denotes that time
    value. *)
Lemma of_iso_iso (t : Z) : Z.abs t <= maxTime -> of_iso (iso t) = Some t.
Proof.
  intros Ht.
  pose proof (YearFromTime_range t Ht) as Hy.
  destruct (month_date_of_time t) as (Hm & Hd & _). cbv zeta in Hm, Hd.
  destruct (time_within_day t) as (Hh & Hmi & Hs & Hms & _).
  assert (1 <= DateFromTime t <= 31) as Hd'.
  { revert Hd. generalize (leap_day_cases (YearFromTime t)).
    generalize (leap_day (YearFromTime t)) as l. intros l Hl.
    destruct Hm as [Hm0 Hm11].
    assert (MonthFromTime t = 0 \/ MonthFromTime t = 1 \/ MonthFromTime t = 2
            \/ MonthFromTime t = 3 \/ MonthFromTime t = 4 \/ MonthFromTime t = 5
            \/ MonthFromTime t = 6 \/ MonthFromTime t = 7 \/ MonthFromTime t = 8
            \/ MonthFromTime t = 9 \/ MonthFromTime t = 10 \/ MonthFromTime t = 11)
      as Hcases by lia.
    repeat (destruct Hcases as [-> | Hcases]); try rewrite Hcases;
      next_month; cbn [month_start]; lia. }
  unfold of_iso, iso.
  rewrite year_field_year_string by lia. cbn [and_then String.append expect Ascii.eqb Bool.eqb].
  rewrite digits_pad_small by (cbn; lia). cbn [and_then String.append expect Ascii.eqb Bool.eqb].
  rewrite digits_pad_small by (cbn; lia). cbn [and_then String.append expect Ascii.eqb Bool.eqb].
  rewrite digits_pad_small by (cbn; lia). cbn [and_then String.append expect Ascii.eqb Bool.eqb].
  rewrite digits_pad_small by (cbn; lia). cbn [and_then String.append expect Ascii.eqb Bool.eqb].
  rewrite digits_pad_small by (cbn; lia). cbn [and_then String.append expect Ascii.eqb Bool.eqb].
  rewrite digits_pad_small by (cbn; lia). cbn [and_then].
  replace (MonthFromTime t + 1 - 1) with (MonthFromTime t) by lia.
  rewrite MakeDate_fields.
  replace (_ && _ && _ && _ && _ && _ && _ && _) with true.
  - unfold TimeClip. apply Z.leb_le in Ht. now rewrite Ht.
  - symmetry. repeat (apply andb_true_iff; split);
      try reflexivity; try (apply Z.leb_le; lia); try (apply Z.ltb_lt; lia).
Qed.

End DateFacts.


(** ** Sequencing *)

Lemma bind_ret_l `{Host} {A B} (a : A) (k : A -> M B) (st : State) :
  (x <- ret a ;; k x) st = k a st.
Proof. reflexivity. Qed.

Lemma bind_throw `{Host} {A B} (e : JsVal) (k : A -> M B) (st : State) :
  (x <- throw e ;; k x) st = (Thrown e, st).
Proof. reflexivity. Qed.

Lemma bind_assoc `{Host} {A B C} (m : M A) (k : A -> M B) (k' : B -> M C) (st : State) :
  (y <- (x <- m ;; k x) ;; k' y) st = (x <- m ;; y <- k x ;; k' y) st.
Proof. unfold bind. destruct (m st) as [[a | e] st']; reflexivity. Qed.

Lemma try_catch_throw `{Host} {A} (e : JsVal) (handler : JsVal -> M A) (st : State) :
  try_catch (throw e) handler st = handler e st.
Proof. reflexivity. Qed.

(** ** Running the script symbolically *)

Ltac unfold_script :=
  unfold reply_of in *;
  unfold outcome_of, events_of, world_after, init,
    fetchCompanies, createCompany, deleteCompany, assertUser, batch,
    sdk.putV2ObjectsPeopleRecords, sdk.postV2ObjectsCompaniesRecords,
    sdk.postV2ObjectsCompaniesRecordsQuery,
    sdk.deleteV2ObjectsCompaniesRecordsRecord_id, sdk.core_fetch, sdk.auth,
    console.log, console.error, fs.writeFileSync,
    toISOString, try_catch, bind, lift, ret, throw, emit in *.

(** Case analysis on everything the outside decides: the client's reply,
    what a property read gives, whether the listing serialises, whether the
    write goes through. *)
Ltac settle_one :=
  match goal with
  | |- context [host_fetch ?p ?m ?a ?w] =>
      let E := fresh "Efetch" in
      destruct (host_fetch p m a w) as [[? | ?] ?] eqn:E;
      repeat match goal with
             | Hyp : context [host_fetch p m a w] |- _ =>
                 tryif constr_eq Hyp E then fail else rewrite E in Hyp
             end
  | |- context [host_write ?p ?d ?w] =>
      let E := fresh "Ewrite" in
      destruct (host_write p d w) as [[? | ?] ?] eqn:E;
      repeat match goal with
             | Hyp : context [host_write p d w] |- _ =>
                 tryif constr_eq Hyp E then fail else rewrite E in Hyp
             end
  | |- context [get_prop ?v ?k] =>
      let E := fresh "Eprop" in
      destruct (get_prop v k) eqn:E;
      repeat match goal with
             | Hyp : context [get_prop v k] |- _ =>
                 tryif constr_eq Hyp E then fail else rewrite E in Hyp
             end
  | |- context [JSON.stringify ?v ?n] =>
      let E := fresh "Ejson" in
      destruct (JSON.stringify v n) eqn:E;
      repeat match goal with
             | Hyp : context [JSON.stringify v n] |- _ =>
                 tryif constr_eq Hyp E then fail else rewrite E in Hyp
             end
  end.

Ltac reuse_replies :=
  repeat match goal with
         | E : host_fetch ?p ?m ?a ?w = _, Hyp : context [host_fetch ?p ?m ?a ?w] |- _ =>
             tryif constr_eq Hyp E then fail
             else (rewrite E in Hyp; cbn -[JSON.stringify get_prop] in Hyp)
         end.

Ltac settle :=
  repeat (settle_one; cbn -[JSON.stringify get_prop] in *; reuse_replies;
          try discriminate).

(** What [assertUser] does once the date has parsed: one request; a
    response is returned as it is; a rejection is caught, its [data] is
    read and logged and the call ends with [undefined], unless reading
    [data] itself throws (a rejection with [undefined] or [null]). *)
Lemma assertUser_run `{Host} (email name last_session : string) (t : Z) (st : State) :
  Date_new last_session = Some t ->
  assertUser email name last_session st
  = let request :=
      Fetch "/v2/objects/people/records" "put" (upsert_args email name (Date.iso t)) in
    match host_fetch "/v2/objects/people/records" "put"
            (upsert_args email name (Date.iso t)) (world st) with
    | (Returned res, w') => (Returned res, mkState w' (trace st ++ [request]))
    | (Thrown e, w') =>
        match get_prop e "data" with
        | Returned payload =>
            (Returned JUndefined,
             mkState w' ((trace st ++ [request]) ++ [ConsoleError payload]))
        | Thrown e' => (Thrown e', mkState w' (trace st ++ [request]))
        end
    end.
Proof.
  intros Hdate. unfold_script. rewrite Hdate. unfold upsert_args. simpl.
  settle; reflexivity.
Qed.

Lemma assertUser_first_event `{Host} (email name last_session : string) (t : Z) (w : World) :
  Date_new last_session = Some t ->
  exists rest,
    events_of (assertUser email name last_session) w
    = Fetch "/v2/objects/people/records" "put" (upsert_args email name (Date.iso t))
      :: rest
    /\ existsb is_fetch rest = false.
Proof.
  intros Hdate. unfold events_of. rewrite (assertUser_run _ _ _ _ _ Hdate).
  cbv zeta. unfold init. cbn [world trace].
  destruct (host_fetch _ _ _ w) as [[res | e] w'].
  - exists []. split; reflexivity.
  - destruct (get_prop e "data").
    + exists [ConsoleError a]. split; reflexivity.
    + exists []. split; reflexivity.
Qed.

Lemma assertUser_reply `{Host} (email name last_session : string) (t : Z) (w : World) :
  Date_new last_session = Some t ->
  reply_of (assertUser email name last_session) w
  = Some (fst (host_fetch "/v2/objects/people/records" "put"
                 (upsert_args email name (Date.iso t)) w)).
Proof.
  intros Hdate. unfold reply_of.
  destruct (assertUser_first_event email name last_session t w Hdate) as (rest & -> & _).
  reflexivity.
Qed.

(** What [fetchCompanies] does: one query; the listing is read from the
    response, serialised and written; every failure on the way ends the
    call with the error. *)
Lemma fetchCompanies_run `{Host} (st : State) :
  fetchCompanies st
  = let request := Fetch "/v2/objects/companies/records/query" "post" [JObj []] in
    match host_fetch "/v2/objects/companies/records/query" "post" [JObj []] (world st) with
    | (Thrown e, w1) => (Thrown e, mkState w1 (trace st ++ [request]))
    | (Returned res, w1) =>
        match select res [Field "data"; Field "data"] with
        | Thrown e => (Thrown e, mkState w1 (trace st ++ [request]))
        | Returned listing =>
            match JSON.stringify listing 2 with
            | None =>
                (Thrown (TypeError "The data argument must be of type string or an instance of Buffer, TypedArray, or DataView. Received undefined"),
                 mkState w1 (trace st ++ [request]))
            | Some text =>
                let tr := ((trace st ++ [request]) ++ [WriteFile "./out/companies.json" text])%list in
                match host_write "./out/companies.json" text w1 with
                | (Returned _, w2) => (Returned JUndefined, mkState w2 tr)
                | (Thrown e, w2) => (Thrown e, mkState w2 tr)
                end
            end
        end
    end.
Proof.
  unfold_script. cbn -[JSON.stringify get_prop].
  destruct (host_fetch _ _ _ (world st)) as [[res | e] w1]; [| reflexivity].
  cbn -[JSON.stringify get_prop].
  destruct (get_prop res "data") as [data | e]; [| reflexivity].
  cbn -[JSON.stringify get_prop].
  destruct (get_prop data "data") as [listing | e]; [| reflexivity].
  cbn -[JSON.stringify get_prop].
  destruct (JSON.stringify listing 2) as [text |]; [| reflexivity].
  cbn -[JSON.stringify get_prop].
  destruct (host_write _ _ w1) as [[[] | e] w2]; reflexivity.
Qed.

Lemma fetchCompanies_first_event `{Host} (w : World) :
  exists rest,
    events_of fetchCompanies w
    = Fetch "/v2/objects/companies/records/query" "post" [JObj []] :: rest
    /\ existsb is_fetch rest = false.
Proof.
  unfold events_of. rewrite fetchCompanies_run. cbv zeta. unfold init.
  cbn [world trace app].
  destruct (host_fetch _ _ _ w) as [[res | e] w1]; [| exists []; split; reflexivity].
  destruct (select res _) as [listing | e]; [| exists []; split; reflexivity].
  destruct (JSON.stringify listing 2) as [text |]; [| exists []; split; reflexivity].
  destruct (host_write _ _ w1) as [[[] | e] w2];
    exists [WriteFile "./out/companies.json" text]; split; reflexivity.
Qed.

Lemma fetchCompanies_reply `{Host} (w : World) :
  reply_of fetchCompanies w
  = Some (fst (host_fetch "/v2/objects/companies/records/query" "post" [JObj []] w)).
Proof.
  unfold reply_of. destruct (fetchCompanies_first_event w) as (rest & -> & _).
  reflexivity.
Qed.

(** C2: a [last_session] that is not a date makes [assertUser] throw the
    RangeError of [toISOString] before the [try] block is entered: the
    call ends with that error, and neither the trace nor the world has
    changed, so no request was issued. *)
Theorem assertUser_unparseable_throws_before_request `{Host}
    (email name last_session : string) (st : State) :
  Date_new last_session = None ->
  assertUser email name last_session st
    = (Thrown (RangeError "Invalid time value"), st)
  /\ upserts (events_of (assertUser email name last_session) (world st)) = [].
Proof.
  intros Hdate. unfold_script. rewrite Hdate. simpl. split; reflexivity.
Qed.

Lemma assertUser_unparseable_throws_before_request_witness :
  Date_new (H := Double.host) "the day before yesterday" = None
  /\ assertUser (H := Double.host) "jon@foo.com" "Jon Foo" "the day before yesterday"
       (mkState (H := Double.host) [Returned Double.response] [])
     = (Thrown (RangeError "Invalid time value"),
        mkState (H := Double.host) [Returned Double.response] [])
  /\ upserts (events_of (H := Double.host)
                (assertUser "jon@foo.com" "Jon Foo" "the day before yesterday")
                [Returned Double.response]) = [].
Proof.
  split; [reflexivity |].
  apply (@assertUser_unparseable_throws_before_request Double.host
           "jon@foo.com" "Jon Foo" "the day before yesterday"
           (mkState (H := Double.host) [Returned Double.response] [])).
  reflexivity.
Defined.

(** C1: with a [last_session] that parses, when the client rejects the
    upsert with an error [e] whose [data] reads as [payload], [assertUser]
    ends normally with [undefined], and all it did was the upsert request
    followed by one [console.error] of [payload]. *)
Theorem assertUser_contains_upsert_rejection `{Host}
    (email name last_session : string) (t : Z) (w : World) (e payload : JsVal) :
  Date_new last_session = Some t ->
  reply_of (assertUser email name last_session) w = Some (Thrown e) ->
  get_prop e "data" = Returned payload ->
  outcome_of (assertUser email name last_session) w = Returned JUndefined
  /\ events_of (assertUser email name last_session) w
     = [Fetch "/v2/objects/people/records" "put"
          (upsert_args email name (Date.iso t));
        ConsoleError payload].
Proof.
  intros Hdate Hreply Hdata.
  rewrite (assertUser_reply _ _ _ _ _ Hdate) in Hreply.
  unfold outcome_of, events_of. rewrite (assertUser_run _ _ _ _ _ Hdate).
  cbv zeta. unfold init. cbn [world trace].
  destruct (host_fetch _ _ _ w) as [[res | e'] w']; cbn [fst] in Hreply.
  - discriminate.
  - injection Hreply as ->. rewrite Hdata. split; reflexivity.
Qed.

Lemma assertUser_contains_upsert_rejection_witness :
  outcome_of (H := Double.host)
      (assertUser "jon@foo.com" "Jon Foo" "April 19, 2024, 1:19 PM")
      [Thrown Double.failure]
    = Returned JUndefined
  /\ events_of (H := Double.host)
       (assertUser "jon@foo.com" "Jon Foo" "April 19, 2024, 1:19 PM")
       [Thrown Double.failure]
     = [Fetch "/v2/objects/people/records" "put"
          (upsert_args "jon@foo.com" "Jon Foo" "2024-04-19T13:19:00.000Z");
        ConsoleError (JObj [("status_code", JNum (Number.of_Z 400));
                            ("type", JStr "invalid_request_error");
                            ("code", JStr "validation_type")])].
Proof.
  apply (@assertUser_contains_upsert_rejection Double.host
           "jon@foo.com" "Jon Foo" "April 19, 2024, 1:19 PM"
           1713532740000%Z [Thrown Double.failure] Double.failure).
  - reflexivity.
  - reflexivity.
  - reflexivity.
Defined.

(** C10: [createCompany] and [deleteCompany] never hand the client's
    response back.  Each of them, when the client answers its request with
    a response, logs that response with [console.log] and returns
    [undefined]; and in no world does either return anything but
    [undefined]. *)
Theorem company_helpers_return_undefined `{Host} (name domain id : string) :
  (forall w res,
     reply_of (createCompany name domain) w = Some (Returned res) ->
     outcome_of (createCompany name domain) w = Returned JUndefined
     /\ exists request,
          is_fetch request = true
          /\ events_of (createCompany name domain) w = [request; ConsoleLog res])
  /\ (forall w res,
        reply_of (deleteCompany id) w = Some (Returned res) ->
        outcome_of (deleteCompany id) w = Returned JUndefined
        /\ exists request,
             is_fetch request = true
             /\ events_of (deleteCompany id) w = [request; ConsoleLog res])
  /\ (forall w v,
        outcome_of (createCompany name domain) w = Returned v -> v = JUndefined)
  /\ (forall w v,
        outcome_of (deleteCompany id) w = Returned v -> v = JUndefined).
Proof.
  split; [| split; [| split]].
  - intros w res Hcreate. unfold_script. cbn in *. settle.
    injection Hcreate as ->. split; [reflexivity |].
    eexists. split; [| reflexivity]. reflexivity.
  - intros w res Hdelete. unfold_script. cbn in *. settle.
    injection Hdelete as ->. split; [reflexivity |].
    eexists. split; [| reflexivity]. reflexivity.
  - intros w v. unfold_script. cbn. settle; congruence.
  - intros w v. unfold_script. cbn. settle; congruence.
Qed.

(** On a client that rejects every delete, [createCompany] still gets its
    response, and the other way round. *)
Lemma company_helpers_return_undefined_witness :
  (outcome_of (H := Outage.host "/v2/objects/companies/records/{record_id}")
       (createCompany "Nike" "nike.com") tt = Returned JUndefined
   /\ exists request,
        is_fetch request = true
        /\ events_of (H := Outage.host "/v2/objects/companies/records/{record_id}")
             (createCompany "Nike" "nike.com") tt
           = [request; ConsoleLog Double.response])
  /\ (outcome_of (H := Outage.host "/v2/objects/companies/records")
        (deleteCompany "3db23152") tt = Returned JUndefined
      /\ exists request,
           is_fetch request = true
           /\ events_of (H := Outage.host "/v2/objects/companies/records")
                (deleteCompany "3db23152") tt
              = [request; ConsoleLog Double.response]).
Proof.
  split.
  - apply (@company_helpers_return_undefined
             (Outage.host "/v2/objects/companies/records/{record_id}")
             "Nike" "nike.com" "3db23152").
    reflexivity.
  - apply (@company_helpers_return_undefined
             (Outage.host "/v2/objects/companies/records")
             "Nike" "nike.com" "3db23152").
    reflexivity.
Defined.

(** C8: none of the three company helpers has a [try] around its request.
    For each helper on its own: when the client rejects the helper's
    request with [e], the helper ends by throwing [e], having done nothing
    but the request (nothing logged, nothing written), and whatever the
    caller sequenced after the helper is not run: the caller ends with [e]
    as well, with the same trace. *)
Theorem company_helpers_propagate_rejection `{Host} {B : Type}
    (name domain id : string) (rest : JsVal -> M B) :
  (forall w e,
     reply_of (createCompany name domain) w = Some (Thrown e) ->
     outcome_of (createCompany name domain) w = Thrown e
     /\ (exists request, is_fetch request = true
           /\ events_of (createCompany name domain) w = [request])
     /\ outcome_of (r <- createCompany name domain ;; rest r) w = Thrown e
     /\ events_of (r <- createCompany name domain ;; rest r) w
        = events_of (createCompany name domain) w)
  /\ (forall w e,
        reply_of (deleteCompany id) w = Some (Thrown e) ->
        outcome_of (deleteCompany id) w = Thrown e
        /\ (exists request, is_fetch request = true
              /\ events_of (deleteCompany id) w = [request])
        /\ outcome_of (r <- deleteCompany id ;; rest r) w = Thrown e
        /\ events_of (r <- deleteCompany id ;; rest r) w
           = events_of (deleteCompany id) w)
  /\ (forall w e,
        reply_of fetchCompanies w = Some (Thrown e) ->
        outcome_of fetchCompanies w = Thrown e
        /\ (exists request, is_fetch request = true
              /\ events_of fetchCompanies w = [request])
        /\ outcome_of (r <- fetchCompanies ;; rest r) w = Thrown e
        /\ events_of (r <- fetchCompanies ;; rest r) w
           = events_of fetchCompanies w).
Proof.
  split; [| split].
  - intros w e Hcreate. unfold_script. cbn in *. settle.
    injection Hcreate as ->. repeat split. eexists. split; [| reflexivity]. reflexivity.
  - intros w e Hdelete. unfold_script. cbn in *. settle.
    injection Hdelete as ->. repeat split. eexists. split; [| reflexivity]. reflexivity.
  - intros w e Hlist. rewrite fetchCompanies_reply in Hlist.
    unfold outcome_of, events_of, bind. rewrite fetchCompanies_run.
    cbv zeta. unfold init. cbn [world trace app].
    destruct (host_fetch _ _ _ w) as [[res | e'] w1]; cbn [fst] in Hlist;
      [discriminate |].
    injection Hlist as ->. repeat split. eexists. split; [| reflexivity]. reflexivity.
Qed.

(** Each helper on a client that is down for that helper's path only. *)
Lemma company_helpers_propagate_rejection_witness :
  (outcome_of (H := Outage.host "/v2/objects/companies/records")
       (createCompany "Nike" "nike.com") tt = Thrown Double.failure
   /\ (exists request, is_fetch request = true
         /\ events_of (H := Outage.host "/v2/objects/companies/records")
              (createCompany "Nike" "nike.com") tt = [request])
   /\ outcome_of (H := Outage.host "/v2/objects/companies/records")
        (r <- createCompany "Nike" "nike.com" ;; fetchCompanies) tt
      = Thrown Double.failure
   /\ events_of (H := Outage.host "/v2/objects/companies/records")
        (r <- createCompany "Nike" "nike.com" ;; fetchCompanies) tt
      = events_of (H := Outage.host "/v2/objects/companies/records")
          (createCompany "Nike" "nike.com") tt)
  /\ (outcome_of (H := Outage.host "/v2/objects/companies/records/{record_id}")
        (deleteCompany "3db23152") tt = Thrown Double.failure
      /\ (exists request, is_fetch request = true
            /\ events_of (H := Outage.host "/v2/objects/companies/records/{record_id}")
                 (deleteCompany "3db23152") tt = [request])
      /\ outcome_of (H := Outage.host "/v2/objects/companies/records/{record_id}")
           (r <- deleteCompany "3db23152" ;; fetchCompanies) tt
         = Thrown Double.failure
      /\ events_of (H := Outage.host "/v2/objects/companies/records/{record_id}")
           (r <- deleteCompany "3db23152" ;; fetchCompanies) tt
         = events_of (H := Outage.host "/v2/objects/companies/records/{record_id}")
             (deleteCompany "3db23152") tt)
  /\ (outcome_of (H := Outage.host "/v2/objects/companies/records/query")
        fetchCompanies tt = Thrown Double.failure
      /\ (exists request, is_fetch request = true
            /\ events_of (H := Outage.host "/v2/objects/companies/records/query")
                 fetchCompanies tt = [request])
      /\ outcome_of (H := Outage.host "/v2/objects/companies/records/query")
           (r <- fetchCompanies ;; fetchCompanies) tt
         = Thrown Double.failure
      /\ events_of (H := Outage.host "/v2/objects/companies/records/query")
           (r <- fetchCompanies ;; fetchCompanies) tt
         = events_of (H := Outage.host "/v2/objects/companies/records/query")
             fetchCompanies tt).
Proof.
  split; [| split].
  - apply (@company_helpers_propagate_rejection
             (Outage.host "/v2/objects/companies/records") JsVal
             "Nike" "nike.com" "3db23152" (fun _ => fetchCompanies)).
    reflexivity.
  - apply (@company_helpers_propagate_rejection
             (Outage.host "/v2/objects/companies/records/{record_id}") JsVal
             "Nike" "nike.com" "3db23152" (fun _ => fetchCompanies)).
    reflexivity.
  - apply (@company_helpers_propagate_rejection
             (Outage.host "/v2/objects/companies/records/query") JsVal
             "Nike" "nike.com" "3db23152" (fun _ => fetchCompanies)).
    reflexivity.
Defined.

(** *** The serialised listing *)







(** *** Numbers and escapes as they print *)

Example number_integer : JSON.number (Number.of_Z 79400) = "79400".
Proof. vm_compute. reflexivity. Qed.

Example number_negative : JSON.number (Number.of_Z (-12)) = "-12".
Proof. vm_compute. reflexivity. Qed.

Example number_zero : JSON.number (S754_zero true) = "0".
Proof. vm_compute. reflexivity. Qed.

Example number_largest_plain :
  JSON.number (Number.of_Z (10 ^ 21 - 131072)) = "999999999999999900000".
Proof. vm_compute. reflexivity. Qed.

Example number_exponent_from_1e21 :
  JSON.number (Number.of_Z (10 ^ 21)) = "1e+21".
Proof. vm_compute. reflexivity. Qed.

Example number_safe_integer_limit :
  JSON.number (Number.of_Z (2 ^ 53)) = "9007199254740992".
Proof. vm_compute. reflexivity. Qed.

Example number_tenth :
  JSON.number (Number.of_binary 3602879701896397 (-55)) = "0.1".
Proof. vm_compute. reflexivity. Qed.

Example number_tenth_plus_fifth :
  JSON.number (Number.of_binary 5404319552844596 (-54)) = "0.30000000000000004".
Proof. vm_compute. reflexivity. Qed.

Example number_fraction :
  JSON.number (Number.of_binary 8687443681197687 (-46)) = "123.456".
Proof. vm_compute. reflexivity. Qed.

Example number_small_plain :
  JSON.number (Number.of_binary 4722366482869645 (-72)) = "0.000001".
Proof. vm_compute. reflexivity. Qed.

Example number_small_exponent :
  JSON.number (Number.of_binary 7555786372591432 (-76)) = "1e-7".
Proof. vm_compute. reflexivity. Qed.

Example number_1e23 :
  JSON.number (Number.of_binary 5960464477539062 24) = "1e+23".
Proof. vm_compute. reflexivity. Qed.

Example number_smallest : JSON.number (Number.of_binary 1 (-1074)) = "5e-324".
Proof. vm_compute. reflexivity. Qed.

Example number_largest :
  JSON.number (Number.of_binary (2 ^ 53 - 1) 971) = "1.7976931348623157e+308".
Proof. vm_compute. reflexivity. Qed.

Example number_not_finite :
  JSON.number S754_nan = "null" /\ JSON.number (S754_infinity false) = "null"
  /\ JSON.number (Number.of_binary 1 1024) = "null".
Proof. repeat split. Qed.

Example escapes_two_characters :
  JSON.quote_body
    (String (ascii_of_nat 8) (String (ascii_of_nat 9) (String (ascii_of_nat 10)
      (String (ascii_of_nat 12) (String (ascii_of_nat 13) EmptyString)))))
  = "\b\t\n\f\r".
Proof. reflexivity. Qed.

Example escapes_control_and_plain :
  JSON.quote_body (String (ascii_of_nat 31) (String (ascii_of_nat 127) "/ ~"))
  = String (ascii_of_nat 92) "u001f" ++ String (ascii_of_nat 127) "/ ~".
Proof. reflexivity. Qed.



(** The one upsert of a call whose date parses, whatever the client
    answers. *)
Lemma assertUser_upserts `{Host} (email name last_session : string) (t : Z) (w : World) :
  Date_new last_session = Some t ->
  exists body metadata,
    upsert_args email name (Date.iso t) = [body; metadata]
    /\ upserts (events_of (assertUser email name last_session) w) = [(body, metadata)].
Proof.
  intros Hdate. do 2 eexists. split; [reflexivity |].
  unfold events_of. rewrite (assertUser_run _ _ _ _ _ Hdate).
  cbv zeta. unfold init. cbn [world trace app].
  destruct (host_fetch _ _ _ w) as [[res | e] w']; [reflexivity |].
  destruct (get_prop e "data"); reflexivity.
Qed.

Ltac with_upsert Hdate w :=
  let body := fresh "body" in
  let metadata := fresh "metadata" in
  let Hargs := fresh "Hargs" in
  let Hups := fresh "Hups" in
  match type of Hdate with
  | Date_new ?ls = Some ?t =>
      match goal with
      | |- context [assertUser ?email ?name ls] =>
          destruct (assertUser_upserts email name ls t w Hdate)
            as (body & metadata & Hargs & Hups);
          rewrite Hups; injection Hargs as <- <-
      end
  end.

(** C4: the upsert carries the email exactly as it was given, under
    [data.values.email_addresses[0].email_address], and its metadata names
    [email_addresses] as the matching attribute; this is the only upsert of
    the call. *)
Theorem assertUser_email_unmodified `{Host}
    (email name last_session : string) (t : Z) (w : World) :
  Date_new last_session = Some t ->
  map (fun request =>
         (select (fst request)
            [Field "data"; Field "values"; Field "email_addresses"; Item 0;
             Field "email_address"],
          select (snd request) [Field "matching_attribute"]))
      (upserts (events_of (assertUser email name last_session) w))
  = [(Returned (JStr email), Returned (JStr "email_addresses"))].
Proof.
  intros Hdate. with_upsert Hdate w. reflexivity.
Qed.

Lemma assertUser_email_unmodified_witness :
  map (fun request =>
         (select (fst request)
            [Field "data"; Field "values"; Field "email_addresses"; Item 0;
             Field "email_address"],
          select (snd request) [Field "matching_attribute"]))
      (upserts (events_of (H := Double.host)
                  (assertUser "jon@foo.com" "Jon Foo" "April 19, 2024, 1:19 PM")
                  [Returned Double.response]))
  = [(Returned (JStr "jon@foo.com"), Returned (JStr "email_addresses"))].
Proof.
  apply (@assertUser_email_unmodified Double.host
           "jon@foo.com" "Jon Foo" "April 19, 2024, 1:19 PM" 1713532740000%Z
           [Returned Double.response]).
  reflexivity.
Defined.

(** The encoded form of the email that [assertUser] computes first is not
    what goes into the request. *)
Example replace_at_sign : replace "@" "%40" "jon@foo.com" = "jon%40foo.com".
Proof. reflexivity. Qed.

(** ** Splitting on spaces *)

(** The first token of [split] is the text before the first space; the
    other tokens are those of the text after it. *)
Lemma split_before_after (s : string) :
  split space s
  = before_space s
    :: match after_space s with
       | Some rest => split space rest
       | None => []
       end.
Proof.
  induction s as [| c s IH]; [reflexivity |].
  cbn [split before_space after_space].
  destruct (Ascii.eqb c space); [reflexivity |].
  rewrite IH. reflexivity.
Qed.

Lemma before_after_space (s rest : string) :
  after_space s = Some rest -> s = before_space s ++ String space rest.
Proof.
  revert rest. induction s as [| c s IH]; intros rest Hafter; [discriminate |].
  cbn [before_space after_space] in *.
  destruct (Ascii.eqb c space) eqn:Ec.
  - apply Ascii.eqb_eq in Ec. injection Hafter as ->. subst c. reflexivity.
  - cbn. f_equal. apply IH, Hafter.
Qed.

Lemma before_space_has_no_space (s : string) :
  after_space (before_space s) = None.
Proof.
  induction s as [| c s IH]; [reflexivity |].
  cbn [before_space]. destruct (Ascii.eqb c space) eqn:Ec; [reflexivity |].
  cbn [after_space]. rewrite Ec. exact IH.
Qed.

Lemma before_space_whole (s : string) :
  after_space s = None -> before_space s = s.
Proof.
  induction s as [| c s IH]; [reflexivity |].
  cbn [before_space after_space].
  destruct (Ascii.eqb c space); [discriminate |].
  intros Hs. now rewrite IH.
Qed.

Lemma before_space_append (a b : string) :
  after_space a = None -> before_space (a ++ String space b) = a.
Proof.
  induction a as [| c a IH]; [reflexivity |].
  cbn [before_space after_space String.append].
  destruct (Ascii.eqb c space); [discriminate |].
  intros Ha. now rewrite IH.
Qed.

Lemma after_space_append (a b : string) :
  after_space a = None -> after_space (a ++ String space b) = Some b.
Proof.
  induction a as [| c a IH]; [reflexivity |].
  cbn [after_space String.append].
  destruct (Ascii.eqb c space); [discriminate | exact IH].
Qed.

(** A name of one token splits into itself; a name of two tokens into the
    two. *)
Lemma split_one_token (n : string) :
  after_space n = None -> split space n = [n].
Proof.
  intros Hn. rewrite split_before_after, Hn, before_space_whole by exact Hn.
  reflexivity.
Qed.

Lemma split_two_tokens (a b : string) :
  after_space a = None -> after_space b = None ->
  split space (a ++ String space b) = [a; b].
Proof.
  intros Ha Hb.
  rewrite split_before_after, after_space_append, before_space_append by exact Ha.
  now rewrite split_one_token.
Qed.

(** C3: a name of two tokens separated by one space goes out with the first
    token as [first_name], the second as [last_name] and the whole name as
    [full_name]; a name of one token goes out with that token as
    [first_name] and [full_name], and [undefined] as [last_name].  So
    "Jane Doe" gives "Jane", "Doe", "Jane Doe", and "Madonna" gives
    "Madonna", [undefined], "Madonna". *)
Theorem assertUser_name_tokens `{Host}
    (email last_session : string) (t : Z) (w : World) :
  Date_new last_session = Some t ->
  (forall a b,
     after_space a = None -> after_space b = None ->
     name_parts (upserts (events_of
                   (assertUser email (a ++ String space b) last_session) w))
     = [(Returned (JStr a), Returned (JStr b),
         Returned (JStr (a ++ String space b)))])
  /\ (forall n,
        after_space n = None ->
        name_parts (upserts (events_of (assertUser email n last_session) w))
        = [(Returned (JStr n), Returned JUndefined, Returned (JStr n))])
  /\ name_parts (upserts (events_of (assertUser email "Jane Doe" last_session) w))
     = [(Returned (JStr "Jane"), Returned (JStr "Doe"), Returned (JStr "Jane Doe"))]
  /\ name_parts (upserts (events_of (assertUser email "Madonna" last_session) w))
     = [(Returned (JStr "Madonna"), Returned JUndefined, Returned (JStr "Madonna"))].
Proof.
  intros Hdate. repeat split.
  - intros a b Ha Hb. with_upsert Hdate w. unfold name_parts. cbn -[split].
    now rewrite split_two_tokens.
  - intros n Hn. with_upsert Hdate w. unfold name_parts. cbn -[split].
    now rewrite split_one_token.
  - with_upsert Hdate w. reflexivity.
  - with_upsert Hdate w. reflexivity.
Qed.

Lemma assertUser_name_tokens_witness :
  name_parts (upserts (events_of (H := Double.host)
                (assertUser "jane@foo.com" "Jane Doe" "April 19, 2024, 1:19 PM")
                [Returned Double.response]))
  = [(Returned (JStr "Jane"), Returned (JStr "Doe"), Returned (JStr "Jane Doe"))]
  /\ name_parts (upserts (events_of (H := Double.host)
                   (assertUser "jane@foo.com" "Madonna" "April 19, 2024, 1:19 PM")
                   [Returned Double.response]))
     = [(Returned (JStr "Madonna"), Returned JUndefined, Returned (JStr "Madonna"))].
Proof.
  apply (@assertUser_name_tokens Double.host
           "jane@foo.com" "April 19, 2024, 1:19 PM" 1713532740000%Z
           [Returned Double.response]).
  reflexivity.
Defined.

(** C5, amended: for a name with a space, [first_name] is the text before
    the first space and [last_name] is the second token only: the text
    between the first space and the next one (or the end of the name). *)
Theorem assertUser_name_split `{Host}
    (email name last_session rest : string) (t : Z) (w : World) :
  Date_new last_session = Some t ->
  after_space name = Some rest ->
  map (fun request =>
         (select (fst request) (name_part "first_name"),
          select (fst request) (name_part "last_name")))
      (upserts (events_of (assertUser email name last_session) w))
  = [(Returned (JStr (before_space name)), Returned (JStr (before_space rest)))].
Proof.
  intros Hdate Hafter. with_upsert Hdate w.
  cbn -[split]. rewrite (split_before_after name), Hafter.
  rewrite (split_before_after rest). reflexivity.
Qed.

Lemma assertUser_name_split_witness :
  map (fun request =>
         (select (fst request) (name_part "first_name"),
          select (fst request) (name_part "last_name")))
      (upserts (events_of (H := Double.host)
                  (assertUser "anne@foo.com" "Anne Marie Smith" "April 19, 2024, 1:19 PM")
                  [Returned Double.response]))
  = [(Returned (JStr "Anne"), Returned (JStr "Marie"))].
Proof.
  apply (@assertUser_name_split Double.host
           "anne@foo.com" "Anne Marie Smith" "April 19, 2024, 1:19 PM"
           "Marie Smith" 1713532740000%Z [Returned Double.response]).
  - reflexivity.
  - reflexivity.
Defined.

(** C5 as stated fails: for "Anne Marie Smith" the text after the first
    space is "Marie Smith", and the request's [last_name] is "Marie". *)
Lemma last_name_is_remainder_counterexample :
  ~ last_name_is_remainder (H := Double.host)
      "anne@foo.com" "Anne Marie Smith" "April 19, 2024, 1:19 PM"
      [Returned Double.response].
Proof.
  intros Hclaim. specialize (Hclaim "Marie Smith" eq_refl).
  vm_compute in Hclaim. discriminate Hclaim.
Qed.

(** C7: the batch reads [users], which nothing binds, so it ends at once
    with a ReferenceError and leaves the state as it found it; the module as
    a whole authenticates the client and then fails the same way, having
    issued no upsert and no other request. *)
Theorem batch_users_unbound `{Host} (token : JsVal) (st : State) :
  batch users st = (Thrown (ReferenceError "users is not defined"), st)
  /\ main token st
     = (Thrown (ReferenceError "users is not defined"), emit (Auth token) st)
  /\ filter is_fetch (events_of (main token) (world st)) = [].
Proof.
  repeat split.
Qed.

(** ** The timestamp *)

Lemma Date_new_valid `{Host} (s : string) (t : Z) :
  Date_new s = Some t -> host_parse s = Some t /\ (Z.abs t <= Date.maxTime)%Z.
Proof.
  unfold Date_new, Date.TimeClip. destruct (host_parse s) as [t' |]; [| discriminate].
  destruct (Z.leb_spec (Z.abs t') Date.maxTime); [| discriminate].
  intros [= ->]. auto.
Qed.

(** C6: when [last_session] parses to the time value [t], the request's
    [last_session.value] is the text [toISOString] writes for [t], and that
    text, read back as an ISO-8601 UTC date-time, denotes [t] again.  For
    "April 19, 2024, 1:19 PM", when the host reads it as 13:19 on that day
    in a local time that is UTC, the value is "2024-04-19T13:19:00.000Z". *)
Theorem assertUser_last_session_iso `{Host}
    (email name last_session : string) (t : Z) (w : World) :
  Date_new last_session = Some t ->
  map (fun request =>
         select (fst request)
           [Field "data"; Field "values"; Field "last_session"; Field "value"])
      (upserts (events_of (assertUser email name last_session) w))
  = [Returned (JStr (Date.iso t))]
  /\ Date.of_iso (Date.iso t) = Some t
  /\ (last_session = "April 19, 2024, 1:19 PM" ->
      t = Date.MakeDate (Date.MakeDay 2024 3 19) (Date.MakeTime 13 19 0 0) ->
      Date.iso t = "2024-04-19T13:19:00.000Z").
Proof.
  intros Hdate. destruct (Date_new_valid _ _ Hdate) as [_ Hrange].
  split; [| split].
  - with_upsert Hdate w. reflexivity.
  - apply DateFacts.of_iso_iso, Hrange.
  - intros _ ->. vm_compute. reflexivity.
Qed.

Lemma assertUser_last_session_iso_witness :
  map (fun request =>
         select (fst request)
           [Field "data"; Field "values"; Field "last_session"; Field "value"])
      (upserts (events_of (H := Double.host)
                  (assertUser "jon@foo.com" "Jon Foo" "April 19, 2024, 1:19 PM")
                  [Returned Double.response]))
  = [Returned (JStr "2024-04-19T13:19:00.000Z")]
  /\ Date.of_iso "2024-04-19T13:19:00.000Z" = Some 1713532740000%Z.
Proof.
  destruct (@assertUser_last_session_iso Double.host
              "jon@foo.com" "Jon Foo" "April 19, 2024, 1:19 PM" 1713532740000%Z
              [Returned Double.response] eq_refl) as (Hvalue & Hread & _).
  split; [exact Hvalue | exact Hread].
Defined.

(** A host four hours behind UTC reads the same text as 17:19 UTC. *)
Example iso_behind_utc :
  Date.iso (1713532740000 - (-240) * 60000) = "2024-04-19T17:19:00.000Z".
Proof. vm_compute. reflexivity. Qed.

Example iso_epoch : Date.iso 0 = "1970-01-01T00:00:00.000Z".
Proof. vm_compute. reflexivity. Qed.

Example iso_before_epoch : Date.iso (-1) = "1969-12-31T23:59:59.999Z".
Proof. vm_compute. reflexivity. Qed.

Example iso_leap_day : Date.iso 951782400000 = "2000-02-29T00:00:00.000Z".
Proof. vm_compute. reflexivity. Qed.

Example iso_last_instant : Date.iso 8640000000000000 = "+275760-09-13T00:00:00.000Z".
Proof. vm_compute. reflexivity. Qed.

Example iso_first_instant : Date.iso (-8640000000000000) = "-271821-04-20T00:00:00.000Z".
Proof. vm_compute. reflexivity. Qed.

Example iso_year_before_zero : Date.iso (-62198755200000) = "-000001-01-01T00:00:00.000Z".
Proof. vm_compute. reflexivity. Qed.

(** ** The loop, had [users] been bound *)

(** With two records and a client that rejects the first upsert and accepts
    the second, the loop logs the error payload, logs the [undefined] that
    [assertUser] returned, and goes on to the second record. *)
Example batch_continues_after_rejection :
  events_of (H := Double.host)
    (batch (Some [mkUser "jon@foo.com" "Jon Foo" "April 19, 2024, 1:19 PM";
                  mkUser "jane@foo.com" "Jane Doe" "April 19, 2024, 1:19 PM"]))
    [Thrown Double.failure; Returned Double.response]
  = [Fetch "/v2/objects/people/records" "put"
       (upsert_args "jon@foo.com" "Jon Foo" "2024-04-19T13:19:00.000Z");
     ConsoleError (JObj [("status_code", JNum (Number.of_Z 400));
                         ("type", JStr "invalid_request_error");
                         ("code", JStr "validation_type")]);
     ConsoleLog JUndefined;
     Fetch "/v2/objects/people/records" "put"
       (upsert_args "jane@foo.com" "Jane Doe" "2024-04-19T13:19:00.000Z");
     ConsoleLog Double.response].
Proof. vm_compute. reflexivity. Qed.

(** A record whose date does not parse ends the loop: the records after it
    are not sent. *)
Example batch_stops_at_bad_date :
  outcome_of (H := Double.host)
    (batch (Some [mkUser "jon@foo.com" "Jon Foo" "soon";
                  mkUser "jane@foo.com" "Jane Doe" "April 19, 2024, 1:19 PM"]))
    [Returned Double.response]
  = Thrown (RangeError "Invalid time value")
  /\ events_of (H := Double.host)
       (batch (Some [mkUser "jon@foo.com" "Jon Foo" "soon";
                     mkUser "jane@foo.com" "Jane Doe" "April 19, 2024, 1:19 PM"]))
       [Returned Double.response]
     = [].
Proof. split; vm_compute; reflexivity. Qed.

(** * Further properties *)

(** ** What [assertUser] does and never does *)

(** X1: when the client answers the upsert with a response, [assertUser]
    returns that response as it is, and the request is all it did: nothing
    is logged. *)
Theorem assertUser_returns_response `{Host}
    (email name last_session : string) (t : Z) (w : World) (res : JsVal) :
  Date_new last_session = Some t ->
  reply_of (assertUser email name last_session) w = Some (Returned res) ->
  outcome_of (assertUser email name last_session) w = Returned res
  /\ events_of (assertUser email name last_session) w
     = [Fetch "/v2/objects/people/records" "put"
          (upsert_args email name (Date.iso t))].
Proof.
  intros Hdate Hreply.
  rewrite (assertUser_reply _ _ _ _ _ Hdate) in Hreply.
  unfold outcome_of, events_of. rewrite (assertUser_run _ _ _ _ _ Hdate).
  cbv zeta. unfold init. cbn [world trace].
  destruct (host_fetch _ _ _ w) as [[res' | e] w']; cbn [fst] in Hreply.
  - injection Hreply as ->. split; reflexivity.
  - discriminate.
Qed.

Lemma assertUser_returns_response_witness :
  outcome_of (H := Double.host)
      (assertUser "jon@foo.com" "Jon Foo" "April 19, 2024, 1:19 PM")
      [Returned Double.response]
    = Returned Double.response
  /\ events_of (H := Double.host)
       (assertUser "jon@foo.com" "Jon Foo" "April 19, 2024, 1:19 PM")
       [Returned Double.response]
     = [Fetch "/v2/objects/people/records" "put"
          (upsert_args "jon@foo.com" "Jon Foo" "2024-04-19T13:19:00.000Z")].
Proof.
  apply (@assertUser_returns_response Double.host
           "jon@foo.com" "Jon Foo" "April 19, 2024, 1:19 PM"
           1713532740000%Z [Returned Double.response] Double.response).
  - reflexivity.
  - reflexivity.
Defined.

(** X2: the [catch] block reads [e.data] without a guard.  If the upsert is
    rejected with [undefined] or [null], that read throws, so [assertUser]
    itself ends with a TypeError, and nothing has been logged. *)
Theorem assertUser_nullish_rejection_escapes `{Host}
    (email name last_session : string) (t : Z) (w : World) (e : JsVal) :
  Date_new last_session = Some t ->
  reply_of (assertUser email name last_session) w = Some (Thrown e) ->
  e = JUndefined \/ e = JNull ->
  (exists message,
     outcome_of (assertUser email name last_session) w
     = Thrown (TypeError message))
  /\ events_of (assertUser email name last_session) w
     = [Fetch "/v2/objects/people/records" "put"
          (upsert_args email name (Date.iso t))].
Proof.
  intros Hdate Hreply Hnull.
  rewrite (assertUser_reply _ _ _ _ _ Hdate) in Hreply.
  unfold outcome_of, events_of. rewrite (assertUser_run _ _ _ _ _ Hdate).
  cbv zeta. unfold init. cbn [world trace].
  destruct (host_fetch _ _ _ w) as [[res | e'] w']; cbn [fst] in Hreply.
  - discriminate.
  - injection Hreply as ->.
    destruct Hnull as [-> | ->]; cbn; (split; [eexists; reflexivity | reflexivity]).
Qed.

Lemma assertUser_nullish_rejection_escapes_witness :
  (exists message,
     outcome_of (H := Double.host)
       (assertUser "jon@foo.com" "Jon Foo" "April 19, 2024, 1:19 PM")
       [Thrown JUndefined]
     = Thrown (TypeError message))
  /\ events_of (H := Double.host)
       (assertUser "jon@foo.com" "Jon Foo" "April 19, 2024, 1:19 PM")
       [Thrown JUndefined]
     = [Fetch "/v2/objects/people/records" "put"
          (upsert_args "jon@foo.com" "Jon Foo" "2024-04-19T13:19:00.000Z")].
Proof.
  apply (@assertUser_nullish_rejection_escapes Double.host
           "jon@foo.com" "Jon Foo" "April 19, 2024, 1:19 PM"
           1713532740000%Z [Thrown JUndefined] JUndefined).
  - reflexivity.
  - reflexivity.
  - left. reflexivity.
Defined.

(** X3: whatever the input and whatever the client does, a call of
    [assertUser] does one of three things: nothing at all, one upsert
    request, or one upsert request followed by one [console.error].  It
    never sends a second request, never writes a file, and never prints
    with [console.log]. *)
Theorem assertUser_events_shape `{Host}
    (email name last_session : string) (w : World) :
  events_of (assertUser email name last_session) w = []
  \/ (exists args,
        events_of (assertUser email name last_session) w
        = [Fetch "/v2/objects/people/records" "put" args])
  \/ (exists args payload,
        events_of (assertUser email name last_session) w
        = [Fetch "/v2/objects/people/records" "put" args; ConsoleError payload]).
Proof.
  destruct (Date_new last_session) as [t |] eqn:Hdate.
  - unfold events_of. rewrite (assertUser_run _ _ _ _ _ Hdate).
    cbv zeta. unfold init. cbn [world trace].
    destruct (host_fetch _ _ _ w) as [[res | e] w'].
    + right. left. eexists. reflexivity.
    + destruct (get_prop e "data").
      * right. right. do 2 eexists. reflexivity.
      * right. left. eexists. reflexivity.
  - left. unfold_script. rewrite Hdate. reflexivity.
Qed.

(** ** The name fields *)

Lemma index_split_first (s : string) :
  index (split space s) 0 = JStr (before_space s).
Proof. rewrite split_before_after. reflexivity. Qed.

Lemma index_split_second (s : string) :
  index (split space s) 1
  = match after_space s with
    | Some rest => JStr (before_space rest)
    | None => JUndefined
    end.
Proof.
  rewrite split_before_after. destruct (after_space s) as [rest |]; [| reflexivity].
  rewrite (split_before_after rest). reflexivity.
Qed.

Lemma prefix_append (a b : string) : String.prefix a (a ++ b) = true.
Proof.
  induction a as [| c a IH]; [destruct b; reflexivity |].
  cbn. destruct (ascii_dec c c) as [_ | Hne]; [exact IH | contradiction].
Qed.

Lemma append_cancel_l (a x y : string) : a ++ x = a ++ y -> x = y.
Proof.
  induction a as [| c a IH]; cbn; [auto |]. intros [= Heq]. auto.
Qed.

Lemma append_assoc3 (a b c : string) : (a ++ b) ++ c = a ++ (b ++ c).
Proof. induction a as [| x a IH]; cbn; [reflexivity | now rewrite IH]. Qed.

(** X4: in every upsert the full name is the name as given, the first name
    contains no space, the last name, when there is one, contains no space
    either, and the last name is [undefined] exactly when the name has no
    space in it. *)
Theorem assertUser_name_fields `{Host}
    (email name last_session : string) (t : Z) (w : World) :
  Date_new last_session = Some t ->
  exists first last,
    name_parts (upserts (events_of (assertUser email name last_session) w))
    = [(Returned (JStr first), last, Returned (JStr name))]
    /\ after_space first = None
    /\ (last = Returned JUndefined <-> after_space name = None)
    /\ (forall l, last = Returned (JStr l) -> after_space l = None).
Proof.
  intros Hdate. with_upsert Hdate w. unfold name_parts. cbn -[split index].
  rewrite index_split_first, index_split_second.
  do 2 eexists. split; [reflexivity |].
  split; [apply before_space_has_no_space |].
  destruct (after_space name) as [rest |]; split.
  - split; intros Habs; discriminate Habs.
  - intros l [= <-]. apply before_space_has_no_space.
  - split; reflexivity.
  - intros l Habs. discriminate Habs.
Qed.

Lemma assertUser_name_fields_witness :
  exists first last,
    name_parts (upserts (events_of (H := Double.host)
                  (assertUser "anne@foo.com" "Anne Marie Smith" "April 19, 2024, 1:19 PM")
                  [Returned Double.response]))
    = [(Returned (JStr first), last, Returned (JStr "Anne Marie Smith"))]
    /\ after_space first = None
    /\ (last = Returned JUndefined <-> after_space "Anne Marie Smith" = None)
    /\ (forall l, last = Returned (JStr l) -> after_space l = None).
Proof.
  apply (@assertUser_name_fields Double.host
           "anne@foo.com" "Anne Marie Smith" "April 19, 2024, 1:19 PM"
           1713532740000%Z [Returned Double.response]).
  reflexivity.
Defined.

(** X5: for a name with a space, first name, a space and last name always
    form a prefix of the full name, and they give the full name back exactly
    when the name has a single space: with more than two tokens, or with a
    space at the end, what comes after the second token is sent only inside
    the full name. *)
Theorem assertUser_name_recovers_full `{Host}
    (email name last_session rest : string) (t : Z) (w : World) :
  Date_new last_session = Some t ->
  after_space name = Some rest ->
  exists first last,
    name_parts (upserts (events_of (assertUser email name last_session) w))
    = [(Returned (JStr first), Returned (JStr last), Returned (JStr name))]
    /\ String.prefix (first ++ String space last) name = true
    /\ (first ++ String space last = name <-> after_space rest = None).
Proof.
  intros Hdate Hafter. with_upsert Hdate w. unfold name_parts. cbn -[split index].
  rewrite index_split_first, index_split_second, Hafter.
  do 2 eexists. split; [reflexivity |].
  pose proof (before_after_space name rest Hafter) as Hname.
  split.
  - destruct (after_space rest) as [tail |] eqn:Hrest.
    + pose proof (before_after_space rest tail Hrest) as Hr.
      rewrite Hname at 2. rewrite Hr at 2.
      change (before_space name ++ String space (before_space rest ++ String space tail))
        with (before_space name ++ (String space (before_space rest) ++ String space tail)).
      rewrite <- append_assoc3. apply prefix_append.
    + rewrite (before_space_whole rest Hrest), <- Hname.
      rewrite <- (prefix_append name EmptyString) at 1.
      f_equal. clear. induction name as [| c n IH]; cbn; [reflexivity | now rewrite <- IH].
  - split.
    + intros Heq. rewrite Hname in Heq at 2.
      apply append_cancel_l in Heq. injection Heq as Heq.
      rewrite <- Heq. apply before_space_has_no_space.
    + intros Hrest. rewrite (before_space_whole rest Hrest). symmetry. exact Hname.
Qed.

Lemma assertUser_name_recovers_full_witness :
  exists first last,
    name_parts (upserts (events_of (H := Double.host)
                  (assertUser "anne@foo.com" "Anne Marie Smith" "April 19, 2024, 1:19 PM")
                  [Returned Double.response]))
    = [(Returned (JStr first), Returned (JStr last),
        Returned (JStr "Anne Marie Smith"))]
    /\ String.prefix (first ++ String space last) "Anne Marie Smith" = true
    /\ (first ++ String space last = "Anne Marie Smith"
        <-> after_space "Marie Smith" = None).
Proof.
  apply (@assertUser_name_recovers_full Double.host
           "anne@foo.com" "Anne Marie Smith" "April 19, 2024, 1:19 PM"
           "Marie Smith" 1713532740000%Z [Returned Double.response]).
  - reflexivity.
  - reflexivity.
Defined.

(** X6: spaces in unusual places give empty name parts.  A name that starts
    with a space is sent with the empty string as first name; a token
    followed by two spaces is sent with the empty string as last name; the
    empty name is sent with an empty first name and no last name. *)
Theorem assertUser_name_empty_parts `{Host}
    (email last_session : string) (t : Z) (w : World) :
  Date_new last_session = Some t ->
  (forall rest,
     name_parts (upserts (events_of
                   (assertUser email (String space rest) last_session) w))
     = [(Returned (JStr EmptyString), Returned (JStr (before_space rest)),
         Returned (JStr (String space rest)))])
  /\ (forall a rest,
        after_space a = None ->
        name_parts (upserts (events_of
                      (assertUser email (a ++ String space (String space rest))
                         last_session) w))
        = [(Returned (JStr a), Returned (JStr EmptyString),
            Returned (JStr (a ++ String space (String space rest))))])
  /\ name_parts (upserts (events_of (assertUser email EmptyString last_session) w))
     = [(Returned (JStr EmptyString), Returned JUndefined,
         Returned (JStr EmptyString))].
Proof.
  intros Hdate. repeat split.
  - intros rest. with_upsert Hdate w. unfold name_parts. cbn -[split].
    rewrite (split_before_after rest). reflexivity.
  - intros a rest Ha. with_upsert Hdate w. unfold name_parts. cbn -[split index].
    rewrite index_split_first, index_split_second.
    rewrite before_space_append, after_space_append by exact Ha. reflexivity.
  - with_upsert Hdate w. reflexivity.
Qed.

Lemma assertUser_name_empty_parts_witness :
  name_parts (upserts (events_of (H := Double.host)
                (assertUser "jon@foo.com" EmptyString "April 19, 2024, 1:19 PM")
                [Returned Double.response]))
  = [(Returned (JStr EmptyString), Returned JUndefined, Returned (JStr EmptyString))].
Proof.
  apply (@assertUser_name_empty_parts Double.host
           "jon@foo.com" "April 19, 2024, 1:19 PM" 1713532740000%Z
           [Returned Double.response]).
  reflexivity.
Defined.

(** ** The company helpers *)

(** X7: [createCompany] and [deleteCompany] each send exactly one request,
    whether the client then answers or rejects.  The first posts the name
    and the domain as given, each as the only element of its attribute; the
    second addresses the record path with the identifier as given. *)
Theorem company_helpers_requests `{Host}
    (name domain id : string) (w : World) :
  (exists body,
     filter is_fetch (events_of (createCompany name domain) w)
     = [Fetch "/v2/objects/companies/records" "post" [body]]
     /\ select body [Field "data"; Field "values"; Field "name"]
        = Returned (JArr [JObj [("value", JStr name)]])
     /\ select body [Field "data"; Field "values"; Field "domains"]
        = Returned (JArr [JObj [("domain", JStr domain)]]))
  /\ filter is_fetch (events_of (deleteCompany id) w)
     = [Fetch "/v2/objects/companies/records/{record_id}" "delete"
          [JObj [("record_id", JStr id)]]].
Proof.
  split.
  - eexists. split.
    + unfold_script. cbn. settle_one; reflexivity.
    + split; reflexivity.
  - unfold_script. cbn. settle_one; reflexivity.
Qed.

(** X8: the listing is read from the response without a check.  When the
    response has no [data], or its [data] has no [data], [fetchCompanies]
    ends with an error after the query, and the file system has not been
    touched: nothing is written, not even an empty file. *)
Theorem fetchCompanies_without_listing `{Host}
    (w w1 : World) (res : JsVal) :
  host_fetch "/v2/objects/companies/records/query" "post" [JObj []] w
    = (Returned res, w1) ->
  select res [Field "data"; Field "data"] = Returned JUndefined
  \/ (exists e, select res [Field "data"; Field "data"] = Thrown e) ->
  (exists e, outcome_of fetchCompanies w = Thrown e)
  /\ events_of fetchCompanies w
     = [Fetch "/v2/objects/companies/records/query" "post" [JObj []]]
  /\ world_after fetchCompanies w = w1.
Proof.
  intros Hfetch Hlisting.
  unfold outcome_of, events_of, world_after. rewrite fetchCompanies_run.
  cbv zeta. unfold init. cbn [world trace app]. rewrite Hfetch.
  destruct Hlisting as [-> | [e ->]].
  - cbn. split; [eexists; reflexivity | split; reflexivity].
  - split; [eexists; reflexivity | split; reflexivity].
Qed.

Lemma fetchCompanies_without_listing_witness :
  (exists e,
     outcome_of (H := Double.host) fetchCompanies
       [Returned (JObj [("status", JNum (Number.of_Z 200))])] = Thrown e)
  /\ events_of (H := Double.host) fetchCompanies
       [Returned (JObj [("status", JNum (Number.of_Z 200))])]
     = [Fetch "/v2/objects/companies/records/query" "post" [JObj []]]
  /\ world_after (H := Double.host) fetchCompanies
       [Returned (JObj [("status", JNum (Number.of_Z 200))])] = [].
Proof.
  apply (@fetchCompanies_without_listing Double.host
           [Returned (JObj [("status", JNum (Number.of_Z 200))])] []
           (JObj [("status", JNum (Number.of_Z 200))])).
  - reflexivity.
  - right. eexists. reflexivity.
Defined.

(** X9: a failing write is not caught either.  When the listing has been
    fetched and serialised and [fs.writeFileSync] throws, [fetchCompanies]
    ends with that error, after the query and the one attempted write. *)
Theorem fetchCompanies_write_failure `{Host}
    (w w1 w2 : World) (res e : JsVal) (items : list JsVal) (text : string) :
  host_fetch "/v2/objects/companies/records/query" "post" [JObj []] w
    = (Returned res, w1) ->
  select res [Field "data"; Field "data"] = Returned (JArr items) ->
  JSON.stringify (JArr items) 2 = Some text ->
  host_write "./out/companies.json" text w1 = (Thrown e, w2) ->
  outcome_of fetchCompanies w = Thrown e
  /\ events_of fetchCompanies w
     = [Fetch "/v2/objects/companies/records/query" "post" [JObj []];
        WriteFile "./out/companies.json" text].
Proof.
  intros Hfetch Hlisting Htext Hwrite.
  unfold outcome_of, events_of. rewrite fetchCompanies_run.
  cbv zeta. unfold init. cbn [world trace app].
  rewrite Hfetch, Hlisting, Htext, Hwrite. split; reflexivity.
Qed.

Lemma fetchCompanies_write_failure_witness :
  outcome_of (H := NoDir.host) fetchCompanies
    [Returned (JObj [("data", JObj [("data", JArr [])])])]
  = Thrown NoDir.denied
  /\ events_of (H := NoDir.host) fetchCompanies
       [Returned (JObj [("data", JObj [("data", JArr [])])])]
     = [Fetch "/v2/objects/companies/records/query" "post" [JObj []];
        WriteFile "./out/companies.json" "[]"].
Proof.
  apply (@fetchCompanies_write_failure NoDir.host
           [Returned (JObj [("data", JObj [("data", JArr [])])])] [] []
           (JObj [("data", JObj [("data", JArr [])])]) NoDir.denied [] "[]").
  - reflexivity.
  - reflexivity.
  - reflexivity.
  - reflexivity.
Defined.

(** X10: in every world [fetchCompanies] sends the one query and then, at
    most, writes once, and only to [./out/companies.json]; it never prints
    to the console and never sends a second request. *)
Theorem fetchCompanies_events_shape `{Host} (w : World) :
  events_of fetchCompanies w
  = [Fetch "/v2/objects/companies/records/query" "post" [JObj []]]
  \/ exists text,
       events_of fetchCompanies w
       = [Fetch "/v2/objects/companies/records/query" "post" [JObj []];
          WriteFile "./out/companies.json" text].
Proof.
  unfold events_of. rewrite fetchCompanies_run.
  cbv zeta. unfold init. cbn [world trace app].
  destruct (host_fetch _ _ _ w) as [[res | e] w1]; [| left; reflexivity].
  destruct (select res _) as [listing | e]; [| left; reflexivity].
  destruct (JSON.stringify listing 2) as [text |]; [| left; reflexivity].
  destruct (host_write _ _ w1) as [[[] | e] w2]; right; eexists; reflexivity.
Qed.

(** ** The loop over the records *)

Lemma assertUser_unparseable_escapes `{Host}
    (email name last_session : string) (st : State) :
  Date_new last_session = None ->
  assertUser email name last_session st
    = (Thrown (RangeError "Invalid time value"), st).
Proof.
  intros Hdate. unfold_script. rewrite Hdate. reflexivity.
Qed.

Lemma for_of_app `{Host} {A} (xs ys : list A) (body : A -> M unit) (st : State) :
  for_of (xs ++ ys) body st = (for_of xs body ;; for_of ys body) st.
Proof.
  revert st. induction xs as [| x xs IH]; intros st; [reflexivity |].
  cbn [app for_of]. unfold bind.
  destruct (body x st) as [[[] | e] st1]; [| reflexivity].
  rewrite IH. reflexivity.
Qed.

(** One round: the record's request, then one [console.log]; a rejection
    with an error is absorbed on the way. *)
Lemma round_run `{Host} (user : User) (t : Z) (st : State) :
  rejects_with_errors ->
  Date_new (last_session user) = Some t ->
  exists st',
    (res <- assertUser (email user) (name user) (last_session user) ;;
     console.log res) st = (Returned tt, st')
    /\ filter is_fetch (trace st')
       = (filter is_fetch (trace st) ++ [upsert_request (user, t)])%list
    /\ map is_fetch (filter in_round (trace st'))
       = (map is_fetch (filter in_round (trace st)) ++ [true; false])%list.
Proof.
  intros Hhost Hdate. unfold bind. rewrite (assertUser_run _ _ _ _ _ Hdate).
  cbv zeta.
  destruct (host_fetch _ _ _ (world st)) as [[res | e] w'] eqn:Hfetch.
  - eexists. split; [reflexivity |].
    cbn [console.log emit trace world snd].
    rewrite !filter_app, !map_app. cbn. rewrite ?app_nil_r.
    split; [reflexivity |]. now rewrite <- ?app_assoc.
  - destruct (Hhost _ _ _ _ _ _ Hfetch) as [payload ->].
    eexists. split; [reflexivity |].
    cbn [console.log emit trace world snd].
    rewrite !filter_app, !map_app. cbn. rewrite ?app_nil_r.
    split; [reflexivity |]. now rewrite <- ?app_assoc.
Qed.

Lemma rounds_run `{Host} (records : list User) (times : list Z) :
  rejects_with_errors ->
  Forall2 (fun user t => Date_new (last_session user) = Some t) records times ->
  forall st,
  exists st',
    for_of records
      (fun user =>
         res <- assertUser (email user) (name user) (last_session user) ;;
         console.log res) st
    = (Returned tt, st')
    /\ filter is_fetch (trace st')
       = (filter is_fetch (trace st) ++ map upsert_request (combine records times))%list
    /\ map is_fetch (filter in_round (trace st'))
       = (map is_fetch (filter in_round (trace st))
          ++ flat_map (fun _ => [true; false]) records)%list.
Proof.
  intros Hhost Hparsed.
  induction Hparsed as [| user t records times Hdate _ IH]; intros st.
  - exists st. cbn. rewrite !app_nil_r. repeat split.
  - destruct (round_run user t st Hhost Hdate) as (st1 & Hrun & Hfetches & Hrounds).
    destruct (IH st1) as (st' & Hrest & Hfetches' & Hrounds').
    exists st'. split; [| split].
    + cbn [for_of]. unfold bind at 1. cbv beta. rewrite Hrun. exact Hrest.
    + rewrite Hfetches', Hfetches. cbn [combine map]. now rewrite <- app_assoc.
    + rewrite Hrounds', Hrounds. cbn [flat_map]. now rewrite <- !app_assoc.
Qed.

Lemma batch_run `{Host} (records : list User) (st : State) :
  batch (Some records) st
  = match for_of records
            (fun user =>
               res <- assertUser (email user) (name user) (last_session user) ;;
               console.log res) st with
    | (Returned _, st') => (Returned JUndefined, st')
    | (Thrown e, st') => (Thrown e, st')
    end.
Proof. reflexivity. Qed.

(** X11: had [users] been bound to a list of records whose dates all parse,
    and with a client that rejects with errors only, the loop sends one
    upsert per record, in the order of the list, whether or not earlier
    upserts were rejected; it waits for each reply and prints one line
    before the next request; and it ends normally. *)
Theorem batch_sends_every_record `{Host}
    (records : list User) (times : list Z) (w : World) :
  rejects_with_errors ->
  Forall2 (fun user t => Date_new (last_session user) = Some t) records times ->
  outcome_of (batch (Some records)) w = Returned JUndefined
  /\ filter is_fetch (events_of (batch (Some records)) w)
     = map upsert_request (combine records times)
  /\ map is_fetch (filter in_round (events_of (batch (Some records)) w))
     = flat_map (fun _ => [true; false]) records.
Proof.
  intros Hhost Hparsed.
  destruct (rounds_run records times Hhost Hparsed (init w))
    as (st' & Hrun & Hfetches & Hrounds).
  unfold outcome_of, events_of. rewrite batch_run, Hrun.
  cbn [fst snd]. auto.
Qed.

Lemma batch_sends_every_record_witness :
  outcome_of (H := Flaky.host)
    (batch (Some [mkUser "jon@foo.com" "Jon Foo" "April 19, 2024, 1:19 PM";
                  mkUser "jane@foo.com" "Jane Doe" "April 19, 2024, 1:19 PM"])) 0%nat
  = Returned JUndefined
  /\ filter is_fetch
       (events_of (H := Flaky.host)
          (batch (Some [mkUser "jon@foo.com" "Jon Foo" "April 19, 2024, 1:19 PM";
                        mkUser "jane@foo.com" "Jane Doe" "April 19, 2024, 1:19 PM"]))
          0%nat)
     = [Fetch "/v2/objects/people/records" "put"
          (upsert_args "jon@foo.com" "Jon Foo" "2024-04-19T13:19:00.000Z");
        Fetch "/v2/objects/people/records" "put"
          (upsert_args "jane@foo.com" "Jane Doe" "2024-04-19T13:19:00.000Z")]
  /\ map is_fetch
       (filter in_round
          (events_of (H := Flaky.host)
             (batch (Some [mkUser "jon@foo.com" "Jon Foo" "April 19, 2024, 1:19 PM";
                           mkUser "jane@foo.com" "Jane Doe" "April 19, 2024, 1:19 PM"]))
             0%nat))
     = [true; false; true; false].
Proof.
  apply (@batch_sends_every_record Flaky.host
           [mkUser "jon@foo.com" "Jon Foo" "April 19, 2024, 1:19 PM";
            mkUser "jane@foo.com" "Jane Doe" "April 19, 2024, 1:19 PM"]
           [1713532740000%Z; 1713532740000%Z] 0%nat).
  - intros path method args n e n'. simpl. unfold Flaky.fetch.
    destruct (Nat.even n); intros Hreply; [| discriminate Hreply].
    injection Hreply as <- _. eexists. reflexivity.
  - repeat constructor.
Defined.

(** X12: a record whose date does not parse stops the loop: the records
    before it have been sent, in order, the record itself and all records
    after it are never sent, and the loop ends with the RangeError. *)
Theorem batch_stops_at_unparseable_date `{Host}
    (sent : list User) (times : list Z) (bad : User) (unsent : list User)
    (w : World) :
  rejects_with_errors ->
  Forall2 (fun user t => Date_new (last_session user) = Some t) sent times ->
  Date_new (last_session bad) = None ->
  outcome_of (batch (Some (sent ++ bad :: unsent)%list)) w
  = Thrown (RangeError "Invalid time value")
  /\ filter is_fetch (events_of (batch (Some (sent ++ bad :: unsent)%list)) w)
     = map upsert_request (combine sent times).
Proof.
  intros Hhost Hparsed Hbad.
  destruct (rounds_run sent times Hhost Hparsed (init w))
    as (st' & Hrun & Hfetches & _).
  assert (batch (Some (sent ++ bad :: unsent)%list) (init w)
          = (Thrown (RangeError "Invalid time value"), st')) as Hbatch.
  { rewrite batch_run, for_of_app. unfold bind at 1. rewrite Hrun.
    cbn [for_of]. unfold bind at 1 2. cbv beta.
    rewrite (assertUser_unparseable_escapes _ _ _ st' Hbad). reflexivity. }
  unfold outcome_of, events_of. rewrite Hbatch.
  cbn [fst snd]. rewrite Hfetches. auto.
Qed.

Lemma batch_stops_at_unparseable_date_witness :
  outcome_of (H := Flaky.host)
    (batch (Some [mkUser "jon@foo.com" "Jon Foo" "April 19, 2024, 1:19 PM";
                  mkUser "ann@foo.com" "Ann Lee" "soon";
                  mkUser "jane@foo.com" "Jane Doe" "April 19, 2024, 1:19 PM"])) 0%nat
  = Thrown (RangeError "Invalid time value")
  /\ filter is_fetch
       (events_of (H := Flaky.host)
          (batch (Some [mkUser "jon@foo.com" "Jon Foo" "April 19, 2024, 1:19 PM";
                        mkUser "ann@foo.com" "Ann Lee" "soon";
                        mkUser "jane@foo.com" "Jane Doe" "April 19, 2024, 1:19 PM"]))
          0%nat)
     = [Fetch "/v2/objects/people/records" "put"
          (upsert_args "jon@foo.com" "Jon Foo" "2024-04-19T13:19:00.000Z")].
Proof.
  apply (@batch_stops_at_unparseable_date Flaky.host
           [mkUser "jon@foo.com" "Jon Foo" "April 19, 2024, 1:19 PM"]
           [1713532740000%Z]
           (mkUser "ann@foo.com" "Ann Lee" "soon")
           [mkUser "jane@foo.com" "Jane Doe" "April 19, 2024, 1:19 PM"] 0%nat).
  - intros path method args n e n'. simpl. unfold Flaky.fetch.
    destruct (Nat.even n); intros Hreply; [| discriminate Hreply].
    injection Hreply as <- _. eexists. reflexivity.
  - repeat constructor.
  - reflexivity.
Defined.

(** ** The timestamp, continued *)

Lemma length_append (a b : string) :
  String.length (a ++ b) = (String.length a + String.length b)%nat.
Proof. induction a as [| c a IH]; cbn; [reflexivity | now rewrite IH]. Qed.

Lemma length_pad (n : nat) (v : Z) : String.length (Date.pad n v) = n.
Proof.
  revert v. induction n as [| n IH]; intros v; [reflexivity |].
  cbn [Date.pad]. rewrite length_append, IH. cbn. lia.
Qed.

(** X13: two sessions get the same timestamp only if they are the same
    instant: the timestamps that two calls send are equal exactly when the
    two dates parsed to the same time value. *)
Theorem assertUser_stamp_injective `{Host}
    (email1 name1 session1 email2 name2 session2 : string) (t1 t2 : Z)
    (w1 w2 : World) :
  Date_new session1 = Some t1 ->
  Date_new session2 = Some t2 ->
  map stamp_of (upserts (events_of (assertUser email1 name1 session1) w1))
  = map stamp_of (upserts (events_of (assertUser email2 name2 session2) w2))
  <-> t1 = t2.
Proof.
  intros Hdate1 Hdate2.
  destruct (Date_new_valid _ _ Hdate1) as [_ Hrange1].
  destruct (Date_new_valid _ _ Hdate2) as [_ Hrange2].
  destruct (assertUser_upserts email1 name1 session1 t1 w1 Hdate1)
    as (body1 & meta1 & Hargs1 & ->).
  destruct (assertUser_upserts email2 name2 session2 t2 w2 Hdate2)
    as (body2 & meta2 & Hargs2 & ->).
  injection Hargs1 as <- <-. injection Hargs2 as <- <-.
  unfold stamp_of. cbn. split.
  - intros [= Hiso].
    pose proof (DateFacts.of_iso_iso t1 Hrange1) as Hread1.
    rewrite Hiso, (DateFacts.of_iso_iso t2 Hrange2) in Hread1.
    now injection Hread1.
  - intros ->. reflexivity.
Qed.

Lemma assertUser_stamp_injective_witness :
  map stamp_of
    (upserts (events_of (H := Double.host)
                (assertUser "jon@foo.com" "Jon Foo" "April 19, 2024, 1:19 PM")
                [Returned Double.response]))
  = map stamp_of
      (upserts (events_of (H := Double.host)
                  (assertUser "jane@foo.com" "Jane Doe" "April 19, 2024, 1:19 PM")
                  [Thrown Double.failure]))
  <-> 1713532740000%Z = 1713532740000%Z.
Proof.
  apply (@assertUser_stamp_injective Double.host
           "jon@foo.com" "Jon Foo" "April 19, 2024, 1:19 PM"
           "jane@foo.com" "Jane Doe" "April 19, 2024, 1:19 PM"
           1713532740000%Z 1713532740000%Z
           [Returned Double.response] [Thrown Double.failure]).
  - reflexivity.
  - reflexivity.
Defined.

(** X14: the timestamp sent has a fixed layout: 24 characters when the year
    of the session lies in 0..9999, and 27 characters (a sign and a
    six-digit year) otherwise. *)
Theorem assertUser_stamp_length `{Host}
    (email name last_session : string) (t : Z) (w : World) :
  Date_new last_session = Some t ->
  exists stamp,
    map stamp_of (upserts (events_of (assertUser email name last_session) w))
    = [Returned (JStr stamp)]
    /\ String.length stamp
       = if ((0 <=? Date.YearFromTime t) && (Date.YearFromTime t <=? 9999))%Z
         then 24%nat else 27%nat.
Proof.
  intros Hdate. exists (Date.iso t). split.
  - with_upsert Hdate w. reflexivity.
  - unfold Date.iso, Date.year_string.
    destruct ((0 <=? Date.YearFromTime t) && (Date.YearFromTime t <=? 9999))%Z;
      rewrite ?length_append, ?length_pad;
      try destruct (Date.YearFromTime t <? 0)%Z; reflexivity.
Qed.

Lemma assertUser_stamp_length_witness :
  exists stamp,
    map stamp_of
      (upserts (events_of (H := Double.host)
                  (assertUser "jon@foo.com" "Jon Foo" "April 19, 2024, 1:19 PM")
                  [Returned Double.response]))
    = [Returned (JStr stamp)]
    /\ String.length stamp = 24%nat.
Proof.
  apply (@assertUser_stamp_length Double.host
           "jon@foo.com" "Jon Foo" "April 19, 2024, 1:19 PM" 1713532740000%Z
           [Returned Double.response]).
  reflexivity.
Defined.

(** ** The generated client as a whole *)

(** The four methods the script uses are entries of the table. *)
Lemma sdk_methods_in_table `{Host} (b m : JsVal) :
  sdk.putV2ObjectsPeopleRecords b m = client.call client.putV2ObjectsPeopleRecords [b; m]
  /\ sdk.postV2ObjectsCompaniesRecords b
     = client.call client.postV2ObjectsCompaniesRecords [b]
  /\ sdk.postV2ObjectsCompaniesRecordsQuery b
     = client.call client.postV2ObjectsCompaniesRecordsQuery [b]
  /\ sdk.deleteV2ObjectsCompaniesRecordsRecord_id m
     = client.call client.deleteV2ObjectsCompaniesRecordsRecord_id [m].
Proof. repeat split. Qed.

(** X15: no two methods of the client address the same endpoint: methods
    with the same path and the same HTTP method are the same method. *)
Theorem client_routes_distinct (a b : client.Operation) :
  client.path a = client.path b ->
  client.method a = client.method b ->
  a = b.
Proof.
  destruct a; destruct b; intros Hpath Hmethod;
    first [reflexivity | discriminate Hpath | discriminate Hmethod].
Qed.

Lemma client_routes_distinct_witness :
  client.putV2ObjectsPeopleRecords = client.putV2ObjectsPeopleRecords.
Proof.
  apply (client_routes_distinct
           client.putV2ObjectsPeopleRecords client.putV2ObjectsPeopleRecords).
  - reflexivity.
  - reflexivity.
Defined.

(** X16: the arguments of every method follow its HTTP method: a post takes
    the body, a put or a patch the body and the metadata, a get or a delete
    the metadata alone.  So every method whose path has a placeholder takes
    the metadata that fills it. *)
Theorem client_argument_convention (op : client.Operation) :
  client.params op = client.convention (client.method op)
  /\ (client.has_placeholder (client.path op) = true ->
      In client.metadata (client.params op)).
Proof.
  destruct op; (split; [reflexivity |]); cbn; intros Hph;
    first [discriminate Hph | now left | now (right; left)].
Qed.

Lemma client_argument_convention_witness :
  client.params client.deleteV2ObjectsCompaniesRecordsRecord_id = [client.metadata]
  /\ In client.metadata (client.params client.deleteV2ObjectsCompaniesRecordsRecord_id).
Proof.
  destruct (client_argument_convention client.deleteV2ObjectsCompaniesRecordsRecord_id)
    as [Hparams Hmeta].
  split; [exact Hparams | apply Hmeta; reflexivity].
Defined.

(** ** The company helpers, in every world *)

(** X17: whatever the client does, [createCompany] and [deleteCompany] send
    their one request and then either stop, when it was rejected, or print
    the response once with [console.log]; they never write a file and never
    use [console.error]. *)
Theorem company_helpers_events_shape `{Host}
    (name domain id : string) (w : World) :
  (exists request,
     is_fetch request = true
     /\ (events_of (createCompany name domain) w = [request]
         \/ exists res,
              events_of (createCompany name domain) w = [request; ConsoleLog res]
              /\ reply_of (createCompany name domain) w = Some (Returned res)))
  /\ (exists request,
        is_fetch request = true
        /\ (events_of (deleteCompany id) w = [request]
            \/ exists res,
                 events_of (deleteCompany id) w = [request; ConsoleLog res]
                 /\ reply_of (deleteCompany id) w = Some (Returned res))).
Proof.
  split; refine (ex_intro _ (Fetch _ _ _) (conj eq_refl _)).
  - unfold_script. cbn.
    destruct (host_fetch _ _ _ w) as [[res | e] w'] eqn:Hfetch; cbn.
    + right. exists res. rewrite Hfetch. split; reflexivity.
    + left. reflexivity.
  - unfold_script. cbn.
    destruct (host_fetch _ _ _ w) as [[res | e] w'] eqn:Hfetch; cbn.
    + right. exists res. rewrite Hfetch. split; reflexivity.
    + left. reflexivity.
Qed.
